(** * Verification of MagicMentor's marker parser, assessment flow and user memory store

    Shallow embedding of
    - [backend/agents/assessment_agent.py]: [_strip_think],
      [_extract_bracketed_json], the marker parsing of [continue_assessment],
      [build_gap_entries];
    - [backend/memory/persistent_memory.py]: the skill ledger, mentor notes and
      session summaries of [UserMemory];
    - [backend/agents/learning_agent.py]: the learning-bucket append of
      [start_learning_session];
    - [app.py]: the low-confidence branch of [_assess_quizzing].

    Python [str] values are modelled as [String.string] holding their UTF-8
    bytes, Python [int] as [Z], dicts as association lists in insertion
    order.  A function that may raise returns a sum whose right side names
    the exception. *)

From Stdlib Require Import String Ascii List ZArith Lia Bool Sorting Permutation.
Set Warnings "-register-all".
Import ListNotations.
Open Scope string_scope.

(* ------------------------------------------------------------------ *)
(** ** Python string primitives *)

Module Py.

(** Strings are UTF-8 byte strings: a Python [str] is held as the UTF-8
    encoding of its code points.  Only ASCII characters are significant to
    the code modelled here, except for [str.isspace()], which also holds for
    the non-ASCII whitespace below. *)

(** The one-byte (ASCII) code points for which [str.isspace()] holds:
    [\t \n \v \f \r], the separators U+001C-U+001F and the space. *)
Definition is_space (c : ascii) : bool :=
  let n := nat_of_ascii c in
  ((9 <=? n) && (n <=? 13))%nat || ((28 <=? n) && (n <=? 32))%nat.

(** The two-byte whitespace code points: U+0085 ([C2 85]) and U+00A0
    ([C2 A0]). *)
Definition is_space2 (c1 c2 : ascii) : bool :=
  let n1 := nat_of_ascii c1 in
  let n2 := nat_of_ascii c2 in
  (n1 =? 194)%nat && ((n2 =? 133)%nat || (n2 =? 160)%nat).

(** The three-byte whitespace code points: U+1680 ([E1 9A 80]),
    U+2000-U+200A ([E2 80 80]-[E2 80 8A]), U+2028 ([E2 80 A8]), U+2029
    ([E2 80 A9]), U+202F ([E2 80 AF]), U+205F ([E2 81 9F]) and U+3000
    ([E3 80 80]). *)
Definition is_space3 (c1 c2 c3 : ascii) : bool :=
  let n1 := nat_of_ascii c1 in
  let n2 := nat_of_ascii c2 in
  let n3 := nat_of_ascii c3 in
  ((n1 =? 225) && (n2 =? 154) && (n3 =? 128))%nat
  || ((n1 =? 226) && (n2 =? 128)
      && (((128 <=? n3) && (n3 <=? 138)) || (n3 =? 168) || (n3 =? 169) || (n3 =? 175)))%nat
  || ((n1 =? 226) && (n2 =? 129) && (n3 =? 159))%nat
  || ((n1 =? 227) && (n2 =? 128) && (n3 =? 128))%nat.

(** [s.lstrip()]: drops leading whitespace code points. *)
Fixpoint lstrip (s : string) : string :=
  match s with
  | EmptyString => EmptyString
  | String c r =>
      if is_space c then lstrip r
      else
        match r with
        | String c2 r2 =>
            if is_space2 c c2 then lstrip r2
            else
              match r2 with
              | String c3 r3 => if is_space3 c c2 c3 then lstrip r3 else s
              | EmptyString => s
              end
        | EmptyString => s
        end
  end.

Fixpoint rev_str (s : string) : string :=
  match s with
  | EmptyString => EmptyString
  | String c r => rev_str r ++ String c EmptyString
  end.

(** [lstrip] on the byte-reversed text: drops the reversed encodings of
    the whitespace code points at its head. *)
Fixpoint lstrip_rev (s : string) : string :=
  match s with
  | EmptyString => EmptyString
  | String c r =>
      if is_space c then lstrip_rev r
      else
        match r with
        | String c2 r2 =>
            if is_space2 c2 c then lstrip_rev r2
            else
              match r2 with
              | String c3 r3 => if is_space3 c3 c2 c then lstrip_rev r3 else s
              | EmptyString => s
              end
        | EmptyString => s
        end
  end.

(** [s.rstrip()] *)
Definition rstrip (s : string) : string := rev_str (lstrip_rev (rev_str s)).

(** [s.strip()] *)
Definition strip (s : string) : string := rstrip (lstrip s).

Fixpoint drop (n : nat) (s : string) : string :=
  match n, s with
  | O, _ => s
  | S n', String _ r => drop n' r
  | S _, EmptyString => EmptyString
  end.

Fixpoint take (n : nat) (s : string) : string :=
  match n, s with
  | O, _ => EmptyString
  | S n', String c r => String c (take n' r)
  | S _, EmptyString => EmptyString
  end.

(** A UTF-8 continuation byte ([10xxxxxx]): it does not start a code point. *)
Definition is_cont (c : ascii) : bool :=
  let n := nat_of_ascii c in ((128 <=? n) && (n <=? 191))%nat.

(** [s[:n]] counted in code points: the bytes of the first [n] code points. *)
Fixpoint take_cp (n : nat) (s : string) : string :=
  match s with
  | EmptyString => EmptyString
  | String c r =>
      if is_cont c then String c (take_cp n r)
      else match n with
           | O => EmptyString
           | S k => String c (take_cp k r)
           end
  end.

(** [s.split(sep, 1)]: [None] when [sep] does not occur (one piece),
    otherwise the text before and after the first occurrence. *)
Fixpoint split_once (sep s : string) : option (string * string) :=
  if prefix sep s then Some (EmptyString, drop (String.length sep) s)
  else match s with
       | EmptyString => None
       | String c r =>
           match split_once sep r with
           | Some (b, a) => Some (String c b, a)
           | None => None
           end
       end.

(** [sep in s] *)
Definition contains (s sep : string) : bool :=
  match split_once sep s with Some _ => true | None => false end.

Fixpoint split_fuel (fuel : nat) (sep s : string) : list string :=
  match fuel with
  | O => [s]
  | S f =>
      match split_once sep s with
      | None => [s]
      | Some (b, a) => b :: split_fuel f sep a
      end
  end.

(** [s.split(sep)] for a non-empty separator. *)
Definition split (sep s : string) : list string :=
  split_fuel (S (String.length s)) sep s.

(** [sys.get_int_max_str_digits()] at its default value: converting a
    decimal string of more digits to [int] raises [ValueError] (CPython 3.11
    and later, 3.10.7 and later in the 3.10 series).  Leading zeros count,
    the sign and underscores do not. *)
Definition int_max_str_digits : nat := 4300.

End Py.

(* ------------------------------------------------------------------ *)
(** ** [_strip_think] *)

Definition think_open : string := "<think>".
Definition think_close : string := "</think>".

(** [_strip_think(text)] *)
Definition _strip_think (text : string) : string :=
  match Py.split_once think_close text with
  | Some (_, after) => Py.strip after
  | None =>
      match Py.split_once think_open text with
      | Some (before, _) => Py.strip before
      | None => text
      end
  end.

(* ------------------------------------------------------------------ *)
(** ** JSON values and [json.loads]

    [json.loads] of the Python standard library, as used by
    [_extract_bracketed_json]: strict mode (no control characters inside
    strings), [NaN]/[Infinity]/[-Infinity] accepted, trailing data rejected,
    objects built as dicts (a repeated key keeps its first position and takes
    the last value).  A [\uXXXX] escape whose code fits in 8 bits becomes that
    character; a wider one is kept as its six-character escape text. *)

Module Json.

Inductive json : Type :=
| JNull
| JBool (b : bool)
| JInt (z : Z)
| JFloat (repr : string)
| JStr (s : string)
| JArr (xs : list json)
| JObj (kvs : list (string * json)).

Definition dict (V : Type) := list (string * V).

(** The exceptions [json.loads] raises:
    - [JSONDecodeError]: malformed input ([json.JSONDecodeError], a
      subclass of [ValueError]);
    - [IntTooLong]: the plain [ValueError] that converting an integer
      literal of more than [Py.int_max_str_digits] digits raises
      ("Exceeds the limit (4300 digits) for integer string conversion");
    - [RecursionError]: arrays and objects nested deeper than the
      interpreter's recursion limit lets the scanner enter. *)
Inductive error : Type := JSONDecodeError | IntTooLong | RecursionError.

(** [d[k] = v] on an insertion-ordered dict. *)
Fixpoint dict_set {V} (k : string) (v : V) (d : dict V) : dict V :=
  match d with
  | [] => [(k, v)]
  | (k', v') :: d' =>
      if String.eqb k k' then (k, v) :: d' else (k', v') :: dict_set k v d'
  end.

(** [d.update(e)] *)
Definition dict_update {V} (d e : dict V) : dict V :=
  fold_left (fun acc '(k, v) => dict_set k v acc) e d.

Fixpoint dict_get {V} (k : string) (d : dict V) : option V :=
  match d with
  | [] => None
  | (k', v) :: d' => if String.eqb k k' then Some v else dict_get k d'
  end.

Definition chr (n : nat) : ascii := ascii_of_nat n.
Definition c_dq : ascii := chr 34.
Definition c_bs : ascii := chr 92.
Definition dq : string := String c_dq EmptyString.

Definition is_jws (c : ascii) : bool :=
  let n := nat_of_ascii c in (n =? 32)%nat || (n =? 9)%nat || (n =? 10)%nat || (n =? 13)%nat.

Fixpoint skip_jws (s : string) : string :=
  match s with
  | String c r => if is_jws c then skip_jws r else s
  | EmptyString => EmptyString
  end.

Definition is_digit (c : ascii) : bool :=
  let n := nat_of_ascii c in ((48 <=? n) && (n <=? 57))%nat.

Definition digit_val (c : ascii) : Z := Z.of_nat (nat_of_ascii c - 48).

Definition hex_val (c : ascii) : option nat :=
  let n := nat_of_ascii c in
  if ((48 <=? n) && (n <=? 57))%nat then Some (n - 48)%nat
  else if ((97 <=? n) && (n <=? 102))%nat then Some (n - 87)%nat
  else if ((65 <=? n) && (n <=? 70))%nat then Some (n - 55)%nat
  else None.

(** The character a one-letter escape stands for. *)
Definition simple_escape (e : ascii) : option ascii :=
  match nat_of_ascii e with
  | 34 => Some (chr 34) | 92 => Some (chr 92) | 47 => Some (chr 47)
  | 98 => Some (chr 8) | 102 => Some (chr 12) | 110 => Some (chr 10)
  | 114 => Some (chr 13) | 116 => Some (chr 9)
  | _ => None
  end.

(** Body of a string literal, after its opening quote: the decoded text and
    the input after the closing quote. *)
Fixpoint string_body (s : string) : option (string * string) :=
  match s with
  | EmptyString => None
  | String c r =>
      if Ascii.eqb c c_dq then Some (EmptyString, r)
      else if Ascii.eqb c c_bs then
        match r with
        | String e r1 =>
            match simple_escape e with
            | Some d =>
                match string_body r1 with
                | Some (b, rest) => Some (String d b, rest)
                | None => None
                end
            | None =>
                if Ascii.eqb e "u"%char then
                  match r1 with
                  | String h1 (String h2 (String h3 (String h4 r2))) =>
                      match hex_val h1, hex_val h2, hex_val h3, hex_val h4 with
                      | Some a, Some b, Some c', Some d =>
                          let code := (((a * 16 + b) * 16 + c') * 16 + d)%nat in
                          let pre := if (code <? 256)%nat then String (chr code) EmptyString
                                     else String c_bs (String e (String h1 (String h2
                                            (String h3 (String h4 EmptyString))))) in
                          match string_body r2 with
                          | Some (bd, rest) => Some (pre ++ bd, rest)
                          | None => None
                          end
                      | _, _, _, _ => None
                      end
                  | _ => None
                  end
                else None
            end
        | EmptyString => None
        end
      else if (nat_of_ascii c <? 32)%nat then None
      else
        match string_body r with
        | Some (b, rest) => Some (String c b, rest)
        | None => None
        end
  end.

(** Longest run of decimal digits. *)
Fixpoint digits (s : string) : string * string :=
  match s with
  | String c r =>
      if is_digit c then let (d, rest) := digits r in (String c d, rest)
      else (EmptyString, s)
  | EmptyString => (EmptyString, EmptyString)
  end.

Fixpoint z_of_digits_acc (acc : Z) (s : string) : Z :=
  match s with
  | String c r => z_of_digits_acc (acc * 10 + digit_val c) r
  | EmptyString => acc
  end.

Definition z_of_digits (s : string) : Z := z_of_digits_acc 0 s.

(** Python json number syntax: optional minus, then 0 or a non-zero digit
    followed by digits, an optional fraction [.digits] and an optional
    exponent [e]/[E], optional sign, digits. An int unless a fraction or
    exponent is present; an int is converted with [int()], which raises
    [ValueError] beyond [Py.int_max_str_digits] digits. *)
Definition number (s : string) : (json * string) + error :=
  let '(neg, s1) :=
    match s with
    | String c r => if Ascii.eqb c "-"%char then (true, r) else (false, s)
    | EmptyString => (false, s)
    end in
  let int_part :=
    match s1 with
    | String c r =>
        if Ascii.eqb c "0"%char then Some ("0", r)
        else if is_digit c then let (d, rest) := digits r in Some (String c d, rest)
        else None
    | EmptyString => None
    end in
  match int_part with
  | None => inr JSONDecodeError
  | Some (ip, s2) =>
      let '(frac, s3) :=
        match s2 with
        | String c r =>
            if Ascii.eqb c "."%char then
              match digits r with
              | (EmptyString, _) => (EmptyString, s2)
              | (d, rest) => (String c d, rest)
              end
            else (EmptyString, s2)
        | EmptyString => (EmptyString, s2)
        end in
      let '(ex, s4) :=
        match s3 with
        | String c r =>
            if Ascii.eqb c "e"%char || Ascii.eqb c "E"%char then
              let '(sg, r1) :=
                match r with
                | String d r' =>
                    if Ascii.eqb d "+"%char || Ascii.eqb d "-"%char
                    then (String d EmptyString, r') else (EmptyString, r)
                | EmptyString => (EmptyString, r)
                end in
              match digits r1 with
              | (EmptyString, _) => (EmptyString, s3)
              | (d, rest) => (String c (sg ++ d), rest)
              end
            else (EmptyString, s3)
        | EmptyString => (EmptyString, s3)
        end in
      match frac, ex with
      | EmptyString, EmptyString =>
          if (Py.int_max_str_digits <? String.length ip)%nat then inr IntTooLong
          else let z := z_of_digits ip in inl (JInt (if neg then - z else z)%Z, s4)
      | _, _ =>
          inl (JFloat ((if neg then "-" else "") ++ ip ++ frac ++ ex), s4)
      end
  end.

(** [scan_once]: one value at the head of [s] (whitespace already skipped),
    or the exception scanning it raises.  [room] is how many more arrays and
    objects the scanner can enter before the interpreter's recursion limit
    raises [RecursionError] (the C scanner enters one recursive call per
    array or object). *)
Fixpoint value (room : nat) (s : string) {struct room} : (json * string) + error :=
  match s with
  | EmptyString => inr JSONDecodeError
  | String c r =>
      if Ascii.eqb c c_dq then
        match string_body r with
        | Some (t, rest) => inl (JStr t, rest)
        | None => inr JSONDecodeError
        end
      else if Ascii.eqb c "{"%char then
        match room with
        | O => inr RecursionError
        | S f =>
            let fix members (g : nat) (acc : dict json) (t : string) {struct g}
                : (json * string) + error :=
              match g with
              | O => inr JSONDecodeError
              | S g' =>
                  match t with
                  | String q t1 =>
                      if Ascii.eqb q c_dq then
                        match string_body t1 with
                        | None => inr JSONDecodeError
                        | Some (k, t2) =>
                            match skip_jws t2 with
                            | String col t3 =>
                                if Ascii.eqb col ":"%char then
                                  match value f (skip_jws t3) with
                                  | inr e => inr e
                                  | inl (v, t4) =>
                                      let acc' := dict_set k v acc in
                                      match skip_jws t4 with
                                      | String d t5 =>
                                          if Ascii.eqb d "}"%char then inl (JObj acc', t5)
                                          else if Ascii.eqb d ","%char
                                          then members g' acc' (skip_jws t5)
                                          else inr JSONDecodeError
                                      | EmptyString => inr JSONDecodeError
                                      end
                                  end
                                else inr JSONDecodeError
                            | EmptyString => inr JSONDecodeError
                            end
                        end
                      else inr JSONDecodeError
                  | EmptyString => inr JSONDecodeError
                  end
              end in
            match skip_jws r with
            | String d r' =>
                if Ascii.eqb d "}"%char then inl (JObj [], r')
                else members (S (String.length r)) [] (skip_jws r)
            | EmptyString => inr JSONDecodeError
            end
        end
      else if Ascii.eqb c "["%char then
        match room with
        | O => inr RecursionError
        | S f =>
            let fix elements (g : nat) (acc : list json) (t : string) {struct g}
                : (json * string) + error :=
              match g with
              | O => inr JSONDecodeError
              | S g' =>
                  match value f t with
                  | inr e => inr e
                  | inl (v, t1) =>
                      match skip_jws t1 with
                      | String d t2 =>
                          if Ascii.eqb d "]"%char then inl (JArr (app acc [v]), t2)
                          else if Ascii.eqb d ","%char
                          then elements g' (app acc [v]) (skip_jws t2)
                          else inr JSONDecodeError
                      | EmptyString => inr JSONDecodeError
                      end
                  end
              end in
            match skip_jws r with
            | String d r' =>
                if Ascii.eqb d "]"%char then inl (JArr [], r')
                else elements (S (String.length r)) [] (skip_jws r)
            | EmptyString => inr JSONDecodeError
            end
        end
      else if prefix "null" s then inl (JNull, Py.drop 4 s)
      else if prefix "true" s then inl (JBool true, Py.drop 4 s)
      else if prefix "false" s then inl (JBool false, Py.drop 5 s)
      else if prefix "NaN" s then inl (JFloat "NaN", Py.drop 3 s)
      else if prefix "Infinity" s then inl (JFloat "Infinity", Py.drop 8 s)
      else if prefix "-Infinity" s then inl (JFloat "-Infinity", Py.drop 9 s)
      else number s
  end.

(** [json.loads(s)], with [room] nested arrays and objects allowed before
    [RecursionError]: the value, or the exception raised. *)
Definition loads (room : nat) (s : string) : json + error :=
  match value room (skip_jws s) with
  | inl (v, rest) =>
      match skip_jws rest with EmptyString => inl v | _ => inr JSONDecodeError end
  | inr e => inr e
  end.

End Json.
Import Json.

(* ------------------------------------------------------------------ *)
(** ** [_extract_bracketed_json] *)

(** The [for i, ch in enumerate(after)] loop: [Some end_idx] once the depth
    returns to zero, [None] when the loop runs out ([end_idx is None]). *)
Fixpoint depth_scan (open_ch close_ch : ascii) (s : string) (depth : Z) (i : nat)
  : option nat :=
  match s with
  | EmptyString => None
  | String ch r =>
      if Ascii.eqb ch open_ch then depth_scan open_ch close_ch r (depth + 1) (S i)
      else if Ascii.eqb ch close_ch then
        let depth' := (depth - 1)%Z in
        if Z.eqb depth' 0 then Some (S i)
        else depth_scan open_ch close_ch r depth' (S i)
      else depth_scan open_ch close_ch r depth (S i)
  end.

Definition close_of (open_ch : ascii) : ascii :=
  if Ascii.eqb open_ch "{"%char then "}"%char else "]"%char.

(** [_extract_bracketed_json(text, marker)]: [inl None] is a return of
    Python's [None], [inl (Some v)] a parsed value, [inr e] an exception
    that escapes ([except json.JSONDecodeError] catches only decode errors);
    [room] is the nesting [json.loads] may enter. *)
Definition _extract_bracketed_json (room : nat) (text marker : string)
    : option json + Json.error :=
  if negb (Py.contains text marker) then inl None
  else
    match Py.split_once marker text with
    | None => inl None
    | Some (_, rest) =>
        let after := Py.lstrip rest in
        match after with
        | EmptyString => inl None
        | String first_char _ =>
            if negb (Py.contains "{[" (String first_char EmptyString)) then inl None
            else
              let open_ch := first_char in
              let close_ch := close_of open_ch in
              match depth_scan open_ch close_ch after 0 0 with
              | None => inl None
              | Some end_idx =>
                  match Json.loads room (Py.take end_idx after) with
                  | inl v => inl (Some v)
                  | inr JSONDecodeError => inl None
                  | inr e => inr e
                  end
              end
        end
    end.

(** Nesting depth reached after reading [s]: [+1] per [open_ch], [-1] per
    [close_ch], as the loop of [_extract_bracketed_json] counts it. *)
Fixpoint depth_of (open_ch close_ch : ascii) (s : string) : Z :=
  match s with
  | EmptyString => 0
  | String ch r =>
      ((if Ascii.eqb ch open_ch then 1
        else if Ascii.eqb ch close_ch then -1 else 0) + depth_of open_ch close_ch r)%Z
  end.

(** The text [_extract_bracketed_json] inspects: what follows the first
    occurrence of the marker, left-stripped. *)
Definition after_marker (text marker : string) : option string :=
  match Py.split_once marker text with
  | Some (_, rest) => Some (Py.lstrip rest)
  | None => None
  end.

(* ------------------------------------------------------------------ *)
(** ** Python [int(str)] *)

(** Digits of a base-10 literal with single underscores between digits, as
    [int()] accepts them; returns the digits without the underscores. *)
Fixpoint digits_us (prev_digit : bool) (s : string) : option string :=
  match s with
  | EmptyString => if prev_digit then Some EmptyString else None
  | String c r =>
      if Json.is_digit c then
        match digits_us true r with
        | Some d => Some (String c d)
        | None => None
        end
      else if Ascii.eqb c "_"%char then
        if prev_digit then digits_us false r else None
      else None
  end.

(** [int(s)] for a [str] argument; [None] stands for a raised [ValueError],
    also raised for a literal of more than [Py.int_max_str_digits] digits.
    Only ASCII digits are accepted here: Python's [int()] also reads the
    other Unicode decimal digits, which this model rejects. *)
Definition py_int (s : string) : option Z :=
  let t := Py.strip s in
  let '(neg, body) :=
    match t with
    | String c r =>
        if Ascii.eqb c "-"%char then (true, r)
        else if Ascii.eqb c "+"%char then (false, r)
        else (false, t)
    | EmptyString => (false, t)
    end in
  match digits_us false body with
  | Some d =>
      if (String.length d <=? Py.int_max_str_digits)%nat then
        let z := Json.z_of_digits d in Some (if neg then (- z)%Z else z)
      else None
  | None => None
  end.

(* ------------------------------------------------------------------ *)
(** ** Scalar markers of [continue_assessment] *)

Inductive py_exn : Type := IndexError | ValueError.

Definition question_score_marker : string := "[QUESTION_SCORE:".
Definition assessment_score_marker : string := "[ASSESSMENT_SCORE:".

(** [int(part.split("]")[0].strip().split("/")[0])] *)
Definition scalar_of_part (part : string) : Z + py_exn :=
  match nth_error (Py.split "]" part) 0 with
  | None => inr IndexError
  | Some qs_str =>
      match nth_error (Py.split "/" (Py.strip qs_str)) 0 with
      | None => inr IndexError
      | Some lhs =>
          match py_int lhs with
          | Some z => inl z
          | None => inr ValueError
          end
      end
  end.

(** Body of the [try] block:
    [int(text.split(marker)[1].split("]")[0].strip().split("/")[0])]. *)
Definition scalar_try (marker text : string) : Z + py_exn :=
  match nth_error (Py.split marker text) 1 with
  | None => inr IndexError
  | Some part => scalar_of_part part
  end.

(** [if marker in text: try: ... except (IndexError, ValueError): pass]. *)
Definition scalar_marker (marker text : string) : option Z :=
  if Py.contains text marker then
    match scalar_try marker text with
    | inl z => Some z
    | inr IndexError => None
    | inr ValueError => None
    end
  else None.

(* ------------------------------------------------------------------ *)
(** ** [continue_assessment] *)

Definition nl : string := String (ascii_of_nat 10) EmptyString.

Definition ASSESSOR_SYSTEM : string :=
  "You are MagicMentor's Knowledge Assessor — a fast, decisive diagnostic interviewer." ++ nl ++
  "Your job: run a crisp 8-question quiz covering all subtopics, then emit final results." ++ nl ++ nl ++
  "STRICT RULES — follow exactly:" ++ nl ++
  "1. ONE question per subtopic — ask it, get the answer, MOVE ON. Never follow up on the same subtopic." ++ nl ++
  "2. After EVERY user answer, emit [QUESTION_SCORE: XX/100] on its own line, then immediately ask the next question on a NEW subtopic." ++ nl ++
  "3. After all subtopics are covered (question 8+), emit the FINAL markers and stop." ++ nl ++
  "4. Vary question types: conceptual (define/explain), practical (write code/query), design (choose approach)." ++ nl ++
  "5. Adapt difficulty: go harder if correct, easier if wrong — but still only 1 question per subtopic." ++ nl ++
  "6. Feedback per answer: 1 line max. Be direct. Never hint at the answer before the user responds." ++ nl ++
  "7. If the user flags [LOW_CONFIDENCE]: give score 25/100 for that subtopic, say " ++ dq ++
  "Noted — we'll add this to your study plan" ++ dq ++ ", then move on immediately." ++ nl ++ nl ++
  "AFTER EVERY USER ANSWER (mandatory, on its own line):" ++ nl ++
  "[QUESTION_SCORE: XX/100]" ++ nl ++ nl ++
  "FINAL RESPONSE ONLY (after question 8, once all subtopics are covered):" ++ nl ++
  "[ASSESSMENT_SCORE: XX/100]" ++ nl ++
  "[SUBTOPIC_SCORES: {" ++ dq ++ "SubtopicA" ++ dq ++ ": 85, " ++ dq ++ "SubtopicB" ++ dq ++
  ": 40, " ++ dq ++ "SubtopicC" ++ dq ++ ": 70}]" ++ nl ++
  "[GAPS: [" ++ dq ++ "SubtopicB: reason why it needs work" ++ dq ++ "]]" ++ nl ++
  "[ASSESSMENT_COMPLETE]" ++ nl ++ nl ++
  "Marker rules:" ++ nl ++
  "- QUESTION_SCORE: integer 0-100 based on correctness/depth of the answer" ++ nl ++
  "- ASSESSMENT_SCORE: overall weighted score 0-100" ++ nl ++
  "- SUBTOPIC_SCORES: valid JSON, one entry per subtopic" ++ nl ++
  "- GAPS: valid JSON array, only subtopics scored below 70" ++ nl ++
  "- NEVER emit [ASSESSMENT_COMPLETE] before covering all subtopics".

Record message : Type := mk_message { role : string; content : string }.

(** The text-generation gateway [chat(messages, model, system, ...)]: an
    opaque function of the transcript and the system instruction. *)
Definition gateway : Type := list message -> string -> string.

Record assessment_result : Type := mk_assessment_result {
  r_message : string;
  r_history : list message;
  r_skill : string;
  r_complete : bool;
  r_score : option Z;
  r_question_score : option Z;
  r_subtopic_scores : dict json;
  r_gaps : list json;
}.

(** [continue_assessment(user_input, history, skill, user_memory)]: the
    result dict, or the exception of [_extract_bracketed_json] that escapes
    it ([room] is the nesting [json.loads] may enter). *)
Definition continue_assessment (room : nat) (chat : gateway) (user_input : string)
    (history : list message) (skill : string) : assessment_result + Json.error :=
  let messages := app history [mk_message "user" user_input] in
  let response_text := chat messages ASSESSOR_SYSTEM in
  let clean_response := _strip_think response_text in
  let messages := app messages [mk_message "assistant" clean_response] in
  let complete := Py.contains clean_response "[ASSESSMENT_COMPLETE]" in
  let question_score := scalar_marker question_score_marker clean_response in
  let score := scalar_marker assessment_score_marker clean_response in
  match _extract_bracketed_json room clean_response "[SUBTOPIC_SCORES:" with
  | inr e => inr e
  | inl parsed_subtopics =>
      let subtopic_scores :=
        match parsed_subtopics with
        | Some (JObj d) => d
        | _ => []
        end in
      match _extract_bracketed_json room clean_response "[GAPS:" with
      | inr e => inr e
      | inl parsed_gaps =>
          let gaps :=
            match parsed_gaps with
            | Some (JArr l) => l
            | _ => []
            end in
          inl (mk_assessment_result clean_response messages skill complete score
                 question_score subtopic_scores gaps)
      end
  end.

(* ------------------------------------------------------------------ *)
(** ** The low-confidence branch of [_assess_quizzing] ([app.py]) *)

Inductive quiz_state_t : Type := Selecting | Quizzing | Results.

(** The quiz part of [st.session_state]. *)
Record session : Type := mk_session {
  quiz_state : quiz_state_t;
  quiz_skill : string;
  quiz_history : list message;
  quiz_q_count : nat;
  quiz_score : option Z;
  quiz_subtopics : dict json;
  quiz_gaps : list json;
  quiz_last_q_score : option Z;
  quiz_low_conf : list string;
}.

Fixpoint nat_to_string_fuel (fuel n : nat) (acc : string) : string :=
  match fuel with
  | O => acc
  | S f =>
      let acc' := String (ascii_of_nat (48 + n mod 10)) acc in
      if (n <? 10)%nat then acc' else nat_to_string_fuel f (n / 10) acc'
  end.

(** [str(n)] for a natural number. *)
Definition nat_to_string (n : nat) : string := nat_to_string_fuel (S n) n EmptyString.

Definition low_confidence_marker : string := "[LOW_CONFIDENCE]".

(** [flag_text]: the answer text (possibly empty) with the flag. *)
Definition low_confidence_flag_text (answer : string) : string :=
  if String.eqb (Py.strip answer) EmptyString
  then low_confidence_marker ++ " — não me sinto confiante neste tópico"
  else Py.strip answer ++ nl ++ nl ++ low_confidence_marker.

(** [if low_conf_btn:] in [_assess_quizzing].  An exception raised by
    [continue_assessment] ends the script run before [st.session_state] is
    written, so the session is left as it was. *)
Definition assess_low_confidence (room : nat) (chat : gateway) (answer : string)
    (s : session) : session :=
  let q_count := quiz_q_count s in
  let flag_text := low_confidence_flag_text answer in
  match continue_assessment room chat flag_text (quiz_history s) (quiz_skill s) with
  | inr _ => s
  | inl result =>
      let subtopics :=
        match r_subtopic_scores result with
        | [] => quiz_subtopics s
        | d => dict_update (quiz_subtopics s) d
        end in
      let gaps := match r_gaps result with [] => quiz_gaps s | g => g end in
      mk_session
        (if r_complete result then Results else quiz_state s)
        (quiz_skill s)
        (r_history result)
        (S (quiz_q_count s))
        (quiz_score s)
        subtopics
        gaps
        (Some 25%Z)
        (app (quiz_low_conf s) ["Q" ++ nat_to_string q_count])
  end.

(* ------------------------------------------------------------------ *)
(** ** [build_gap_entries] *)

Module PyStr.

(** [str.lower()] on ASCII letters; other bytes are kept.  Python also
    lowers non-ASCII capitals (e.g. U+00C9 to U+00E9, U+212A KELVIN SIGN to
    [k]); that part of the Unicode case tables is not modelled. *)
Definition lower_char (c : ascii) : ascii :=
  let n := nat_of_ascii c in
  if ((65 <=? n) && (n <=? 90))%nat then ascii_of_nat (n + 32) else c.

Fixpoint lower (s : string) : string :=
  match s with
  | EmptyString => EmptyString
  | String c r => String (lower_char c) (lower r)
  end.

Fixpoint replace_fuel (fuel : nat) (old new s : string) : string :=
  match fuel with
  | O => s
  | S f =>
      match Py.split_once old s with
      | None => s
      | Some (b, a) => b ++ new ++ replace_fuel f old new a
      end
  end.

(** [s.replace(old, new)] for a non-empty [old]. *)
Definition replace (old new s : string) : string :=
  replace_fuel (S (String.length s)) old new s.

(** [str(z)] *)
Definition z_to_string (z : Z) : string :=
  if (z <? 0)%Z then "-" ++ nat_to_string (Z.to_nat (- z)) else nat_to_string (Z.to_nat z).

End PyStr.

Record gap_entry : Type := mk_gap_entry {
  ge_skill : string;
  ge_priority : Z;
  ge_category : string;
  ge_reason : string;
  ge_builds_on : string;
  ge_estimated_learning_time : string;
  ge_job_market_demand : string;
  ge_resources : list json;
  ge_source : string;
  ge_assessed_score : Z;
}.

(** [for sub in subtopic_scores.keys(): if sub.lower() in g.lower(): ... break] *)
Fixpoint first_key_in {V} (g : string) (keys : dict V) : option string :=
  match keys with
  | [] => None
  | (sub, _) :: rest =>
      if Py.contains (PyStr.lower g) (PyStr.lower sub) then Some sub else first_key_in g rest
  end.

(** The [gap_reasons] dict built from the [gaps] list. *)
Definition gap_reasons_of {V} (subtopic_scores : dict V) (gaps : list json) : dict string :=
  fold_left
    (fun acc g =>
       match g with
       | JStr s =>
           match first_key_in s subtopic_scores with
           | Some sub => dict_set sub s acc
           | None => acc
           end
       | _ => acc
       end)
    gaps [].

(** [sorted(items, key=lambda x: x[1])]: a stable sort on the score. *)
Fixpoint insert_by_score (x : string * Z) (l : list (string * Z)) : list (string * Z) :=
  match l with
  | [] => [x]
  | y :: l' => if (snd x <=? snd y)%Z then x :: l else y :: insert_by_score x l'
  end.

Fixpoint sort_by_score (l : list (string * Z)) : list (string * Z) :=
  match l with
  | [] => []
  | x :: l' => insert_by_score x (sort_by_score l')
  end.

Definition em_dash_sep : string := " — ".

Definition gap_entries_from (skill : string) (overall_score : Z) (gap_reasons : dict string)
  : Z -> list (string * Z) -> list gap_entry :=
  fix go priority items :=
    match items with
    | [] => []
    | (subtopic, sub_score) :: rest =>
        let reason :=
          match dict_get subtopic gap_reasons with
          | Some r => r
          | None => "Scored " ++ PyStr.z_to_string sub_score ++ "/100 in " ++ subtopic
          end in
        mk_gap_entry
          (skill ++ em_dash_sep ++ subtopic)
          priority
          (PyStr.replace " " "_" (PyStr.replace " / " "_" (PyStr.lower skill)))
          reason
          ("Existing " ++ skill ++ " knowledge")
          "1-2 weeks"
          (if (overall_score <? 50)%Z then "high" else "medium")
          []
          "assessment"
          sub_score
        :: go (priority + 1)%Z rest
    end.

(** [build_gap_entries(skill, subtopic_scores, gaps, overall_score)] for an
    integer-valued [subtopic_scores] dict. *)
Definition build_gap_entries (skill : string) (subtopic_scores : dict Z)
    (gaps : list json) (overall_score : Z) : list gap_entry :=
  let low_subtopics := filter (fun kv => (snd kv <? 70)%Z) subtopic_scores in
  let gap_reasons := gap_reasons_of subtopic_scores gaps in
  gap_entries_from skill overall_score gap_reasons 1%Z (sort_by_score low_subtopics).

(* ------------------------------------------------------------------ *)
(** ** [UserMemory] ([persistent_memory.py])

    [_data] is the in-memory record, [durable] the content of [memory.json]
    as last written by [save()], [log] the lines of [memory_log.jsonl].
    Every operation takes the value of [datetime.utcnow().isoformat()]. *)

Module Memory.

Definition record := dict json.

Record skills_t : Type := mk_skills {
  current : list record;
  learning : list record;
  completed : list record;
  targets : list record;
}.

Record data_t : Type := mk_data {
  profile : record;
  skills : skills_t;
  mentor_notes : list record;
  learning_history : list record;
  session_summaries : list record;
  assessment_history : list record;
  updated_at : string;
}.

Record log_entry : Type := mk_log_entry { l_timestamp : string; l_type : string; l_content : string }.

Record store : Type := mk_store {
  data : data_t;
  durable : option data_t;
  log : list log_entry;
}.

Definition empty_skills : skills_t := mk_skills [] [] [] [].

(** [_default_structure()] (no [memory.json] yet). *)
Definition default_store (now : string) : store :=
  mk_store
    (mk_data
       [("name", JNull); ("email", JNull); ("location", JNull);
        ("years_experience", JInt 0); ("current_role", JNull); ("target_role", JNull)]
       empty_skills [] [] [] [] now)
    None [].

Definition set_skills (d : data_t) (s : skills_t) : data_t :=
  mk_data (profile d) s (mentor_notes d) (learning_history d) (session_summaries d)
    (assessment_history d) (updated_at d).

Definition set_mentor_notes (d : data_t) (n : list record) : data_t :=
  mk_data (profile d) (skills d) n (learning_history d) (session_summaries d)
    (assessment_history d) (updated_at d).

Definition set_session_summaries (d : data_t) (n : list record) : data_t :=
  mk_data (profile d) (skills d) (mentor_notes d) (learning_history d) n
    (assessment_history d) (updated_at d).

Definition set_assessment_history (d : data_t) (n : list record) : data_t :=
  mk_data (profile d) (skills d) (mentor_notes d) (learning_history d)
    (session_summaries d) n (updated_at d).

Definition with_data (st : store) (d : data_t) : store := mk_store d (durable st) (log st).

(** [save()]: stamp [updated_at] and write the whole record. *)
Definition save (now : string) (st : store) : store :=
  let d := data st in
  let d' := mk_data (profile d) (skills d) (mentor_notes d) (learning_history d)
              (session_summaries d) (assessment_history d) now in
  mk_store d' (Some d') (log st).

(** [log_event(event_type, content)] *)
Definition log_event (now event_type content : string) (st : store) : store :=
  mk_store (data st) (durable st) (app (log st) [mk_log_entry now event_type content]).

(** [l[-n:]] *)
Definition last_n {A} (n : nat) (l : list A) : list A := skipn (length l - n) l.

(** [s.get("name") == name] *)
Definition has_name (name : string) (s : record) : bool :=
  match dict_get "name" s with
  | Some (JStr x) => String.eqb x name
  | _ => false
  end.

(** [update_skills(current, targets)]; [None] or [[]] leaves a bucket as is. *)
Definition update_skills (now : string) (cur tgt : list record) (st : store) : store :=
  let sk := skills (data st) in
  let sk1 := match cur with [] => sk | _ => mk_skills cur (learning sk) (completed sk) (targets sk) end in
  let sk2 := match tgt with [] => sk1 | _ => mk_skills (current sk1) (learning sk1) (completed sk1) tgt end in
  let st1 := with_data st (set_skills (data st) sk2) in
  let st2 := log_event now "skills_update"
               ("current: " ++ nat_to_string (length cur) ++ " skills, targets: "
                ++ nat_to_string (length tgt) ++ " skills") st1 in
  save now st2.

(** [f"{score}"] for a score.  Both callers ([learning_agent.py]) pass a
    Python [int], shown in decimal; [None], [bool] and [str] are shown as
    Python shows them.  A float is shown by its literal text, and a list or
    dict, which no caller passes, by the placeholder ["..."]: Python's
    [repr] of floats and containers is not modelled. *)
Definition score_text (score : json) : string :=
  match score with
  | JInt z => PyStr.z_to_string z
  | JNull => "None"
  | JBool true => "True"
  | JBool false => "False"
  | JStr x => x
  | JFloat r => r
  | JArr _ | JObj _ => "..."
  end.

(** [mark_skill_completed(skill_name, score)] *)
Definition mark_skill_completed (now skill_name : string) (score : json) (st : store) : store :=
  let sk := skills (data st) in
  let learning' := filter (fun s => negb (has_name skill_name s)) (learning sk) in
  let completed' := app (completed sk)
        [[("name", JStr skill_name); ("score", score); ("completed_at", JStr now)]] in
  let st1 := with_data st (set_skills (data st)
               (mk_skills (current sk) learning' completed' (targets sk))) in
  save now (log_event now "skill_completed"
              (skill_name ++ " (score: " ++ score_text score ++ ")") st1).

(** The memory part of [start_learning_session] ([learning_agent.py]). *)
Definition start_learning_append (now skill_name user_level : string) (st : store) : store :=
  let sk := skills (data st) in
  if existsb (has_name skill_name) (learning sk) then st
  else
    let learning' := app (learning sk) [[("name", JStr skill_name); ("level", JStr user_level)]] in
    save now (with_data st (set_skills (data st)
                (mk_skills (current sk) learning' (completed sk) (targets sk)))).

(** [add_mentor_note(note)] *)
Definition add_mentor_note (now note : string) (st : store) : store :=
  let notes := app (mentor_notes (data st)) [[("date", JStr now); ("note", JStr note)]] in
  let st1 := with_data st (set_mentor_notes (data st) (last_n 20 notes)) in
  save now (log_event now "mentor_note" note st1).

(** [add_session_summary(session_type, summary, key_insights)] *)
Definition add_session_summary (now session_type summary : string) (key_insights : list json)
    (st : store) : store :=
  let sums := app (session_summaries (data st))
        [[("date", JStr now); ("type", JStr session_type); ("summary", JStr summary);
          ("key_insights", JArr key_insights)]] in
  save now (with_data st (set_session_summaries (data st) (last_n 10 sums))).

Definition gap_entry_to_json (e : gap_entry) : json :=
  JObj [("skill", JStr (ge_skill e)); ("priority", JInt (ge_priority e));
        ("category", JStr (ge_category e)); ("reason", JStr (ge_reason e));
        ("builds_on", JStr (ge_builds_on e));
        ("estimated_learning_time", JStr (ge_estimated_learning_time e));
        ("job_market_demand", JStr (ge_job_market_demand e));
        ("resources", JArr (ge_resources e)); ("source", JStr (ge_source e));
        ("assessed_score", JInt (ge_assessed_score e))].

(** Modelled from the spec: [UserMemory.save_assessment], which [app.py]
    calls but [persistent_memory.py] does not define.  Per the spec it
    appends one assessment-history record, writes it through like every
    mutating call, logs the event, and leaves the skill ledger alone. *)
Definition save_assessment (now skill : string) (score : Z) (subtopic_scores : dict json)
    (gap_entries : list gap_entry) (st : store) : store :=
  let rec_ := [("date", JStr now); ("skill", JStr skill); ("score", JInt score);
               ("subtopic_scores", JObj subtopic_scores);
               ("gap_entries", JArr (map gap_entry_to_json gap_entries))] in
  let st1 := with_data st (set_assessment_history (data st)
               (app (assessment_history (data st)) [rec_])) in
  save now (log_event now "assessment" (skill ++ " (score: " ++ PyStr.z_to_string score ++ ")") st1).

(** Mutations of the skill ledger. *)
Inductive ledger_op : Type :=
| MarkCompleted (now name : string) (score : json)
| LearnAppend (now name level : string)
| UpdateSkills (now : string) (cur tgt : list record).

Definition ledger_step (o : ledger_op) (st : store) : store :=
  match o with
  | MarkCompleted now name score => mark_skill_completed now name score st
  | LearnAppend now name level => start_learning_append now name level st
  | UpdateSkills now cur tgt => update_skills now cur tgt st
  end.

Definition run_ledger (ops : list ledger_op) (st : store) : store :=
  fold_left (fun s o => ledger_step o s) ops st.

(** Appends to the bounded lists. *)
Inductive note_op : Type :=
| AddNote (now note : string)
| AddSummary (now session_type summary : string) (key_insights : list json).

Definition note_step (o : note_op) (st : store) : store :=
  match o with
  | AddNote now note => add_mentor_note now note st
  | AddSummary now ty sm ki => add_session_summary now ty sm ki st
  end.

Definition run_notes (ops : list note_op) (st : store) : store :=
  fold_left (fun s o => note_step o s) ops st.

(** The note record [add_mentor_note] appends, and the summary record
    [add_session_summary] appends, for an operation. *)
Definition note_of (o : note_op) : list record :=
  match o with
  | AddNote now note => [[("date", JStr now); ("note", JStr note)]]
  | AddSummary _ _ _ _ => []
  end.

Definition summary_of (o : note_op) : list record :=
  match o with
  | AddNote _ _ => []
  | AddSummary now ty sm ki =>
      [[("date", JStr now); ("type", JStr ty); ("summary", JStr sm); ("key_insights", JArr ki)]]
  end.

(** Skill names listed in a bucket. *)
Definition in_bucket (name : string) (b : list record) : Prop :=
  exists s, In s b /\ has_name name s = true.

(** [learning] and [completed] share no skill name. *)
Definition ledger_disjoint (st : store) : Prop :=
  forall name, ~ (in_bucket name (learning (skills (data st))) /\
                  in_bucket name (completed (skills (data st)))).

(** Operations other than a [start_learning_session] append of a name that
    is already in [completed]. *)
Definition keeps_apart (st : store) (o : ledger_op) : Prop :=
  match o with
  | LearnAppend _ name _ => ~ in_bucket name (completed (skills (data st)))
  | _ => True
  end.

Fixpoint run_keeps_apart (ops : list ledger_op) (st : store) : Prop :=
  match ops with
  | [] => True
  | o :: ops' => keeps_apart st o /\ run_keeps_apart ops' (ledger_step o st)
  end.

End Memory.

(* ------------------------------------------------------------------ *)
(** ** Auxiliary predicates on strings *)

Fixpoint mem_char (c : ascii) (s : string) : bool :=
  match s with
  | EmptyString => false
  | String d r => Ascii.eqb c d || mem_char c r
  end.

Fixpoint all_digits (s : string) : bool :=
  match s with
  | EmptyString => true
  | String d r => Json.is_digit d && all_digits r
  end.

(* ------------------------------------------------------------------ *)
(** ** Python truthiness of JSON values *)

(** [float(repr) == 0.0] for a float literal of [json.loads]: the mantissa
    digits are all zero, or the value is at most [2^-1075] and rounds to
    zero (round-half-even below the smallest subnormal [2^-1074]).  [NaN]
    and the infinities are non-zero. *)
Definition float_is_zero (repr : string) : bool :=
  if String.eqb repr "NaN" || String.eqb repr "Infinity" || String.eqb repr "-Infinity"
  then false
  else
    let body := match repr with
                | String c r => if Ascii.eqb c "-"%char then r else repr
                | EmptyString => repr
                end in
    let '(ip, r1) := Json.digits body in
    let '(fd, r2) := match r1 with
                     | String c r => if Ascii.eqb c "."%char then Json.digits r else (EmptyString, r1)
                     | EmptyString => (EmptyString, r1)
                     end in
    let ex := match r2 with
              | String _ (String c r) =>
                  if Ascii.eqb c "-"%char then (- Json.z_of_digits r)%Z
                  else if Ascii.eqb c "+"%char then Json.z_of_digits r
                  else Json.z_of_digits (String c r)
              | _ => 0%Z
              end in
    let m := Json.z_of_digits (ip ++ fd) in
    let e := (ex - Z.of_nat (String.length fd))%Z in
    (m =? 0)%Z || ((e <? 0)%Z && (m * 2 ^ 1075 <=? 10 ^ (- e))%Z).

(** [bool(v)] *)
Definition py_truthy (v : json) : bool :=
  match v with
  | JNull => false
  | JBool b => b
  | JInt z => negb (z =? 0)%Z
  | JFloat r => negb (float_is_zero r)
  | JStr s => negb (String.eqb s EmptyString)
  | JArr xs => match xs with [] => false | _ => true end
  | JObj kvs => match kvs with [] => false | _ => true end
  end.

(** [sep.join(items)] *)
Fixpoint py_join (sep : string) (items : list string) : string :=
  match items with
  | [] => EmptyString
  | [x] => x
  | x :: rest => x ++ sep ++ py_join sep rest
  end.

(** All items evaluated, or the first raised exception ([None]). *)
Fixpoint all_some {A} (l : list (option A)) : option (list A) :=
  match l with
  | [] => Some []
  | None :: _ => None
  | Some x :: rest => match all_some rest with Some r => Some (x :: r) | None => None end
  end.

(** [str.find(c)] and [str.rfind(c)] for a one-character needle. *)
Fixpoint find_char (c : ascii) (s : string) : option nat :=
  match s with
  | EmptyString => None
  | String d r => if Ascii.eqb c d then Some O else option_map S (find_char c r)
  end.

Definition py_find (c : ascii) (s : string) : Z :=
  match find_char c s with Some i => Z.of_nat i | None => (-1)%Z end.

Definition py_rfind (c : ascii) (s : string) : Z :=
  match find_char c (Py.rev_str s) with
  | Some i => (Z.of_nat (String.length s) - 1 - Z.of_nat i)%Z
  | None => (-1)%Z
  end.

(** [s[i:j]] for [0 <= i]. *)
Definition py_slice (s : string) (i j : Z) : string :=
  Py.take (Z.to_nat (j - i)) (Py.drop (Z.to_nat i) s).

(* ------------------------------------------------------------------ *)
(** ** [learning_agent.py]: [continue_learning] and [run_final_validation] *)

Definition TUTOR_SYSTEM : string :=
  "You are MagicMentor's Learning Coach — a skilled Socratic tutor with web search." ++ nl ++ nl ++
  "Teaching method (follow this cycle):" ++ nl ++
  "1. EXPLAIN: Clear, concise explanation (2-3 paragraphs max)" ++ nl ++
  "2. EXAMPLE: Real-world, runnable code example (use your web search for current best practices)" ++ nl ++
  "3. QUESTION: One targeted question to test understanding" ++ nl ++
  "4. VALIDATE: Assess the answer, give feedback, correct misconceptions" ++ nl ++
  "5. ADVANCE: Move forward only when understanding is confirmed" ++ nl ++ nl ++
  "Rules:" ++ nl ++
  "- Connect new concepts to what the learner already knows" ++ nl ++
  "- Use analogies from their background (check their profile if available)" ++ nl ++
  "- After every 3-4 concepts, run a mini-quiz" ++ nl ++
  "- Be encouraging but honest about gaps" ++ nl ++
  "- Connect everything to real job scenarios and interviews" ++ nl ++
  "- Look up current documentation and best practices with your web search" ++ nl ++
  "- Code examples should be practical and reflect 2025/2026 standards" ++ nl ++ nl ++
  "After a quiz, include score as: [QUIZ_SCORE: XX/100]" ++ nl ++
  "When session is truly complete (all core concepts covered + validated): [SESSION_COMPLETE]".

Definition quiz_score_marker : string := "[QUIZ_SCORE:".
Definition final_score_marker : string := "[FINAL_SCORE:".
Definition session_complete_marker : string := "[SESSION_COMPLETE]".
Definition ready_for_cv_marker : string := "[READY_FOR_CV: yes]".

(** Body of the [try] block of the learning agent:
    [int(text.split(marker)[1].split("]")[0].split("/")[0].strip())]. *)
Definition learning_scalar_try (marker text : string) : Z + py_exn :=
  match nth_error (Py.split marker text) 1 with
  | None => inr IndexError
  | Some part =>
      match nth_error (Py.split "]" part) 0 with
      | None => inr IndexError
      | Some score_str =>
          match nth_error (Py.split "/" score_str) 0 with
          | None => inr IndexError
          | Some lhs =>
              match py_int (Py.strip lhs) with
              | Some z => inl z
              | None => inr ValueError
              end
          end
      end
  end.

(** [if marker in text: try: ... except (IndexError, ValueError): pass] *)
Definition learning_scalar (marker text : string) : option Z :=
  if Py.contains text marker then
    match learning_scalar_try marker text with
    | inl z => Some z
    | inr IndexError => None
    | inr ValueError => None
    end
  else None.

(** [x and ...] on an [int | None] score. *)
Definition py_int_truthy (z : option Z) : bool :=
  match z with Some z => negb (z =? 0)%Z | None => false end.

Definition py_bool_str (b : bool) : string := if b then "True" else "False".

Record learning_result : Type := mk_learning_result {
  lr_message : string;
  lr_history : list message;
  lr_skill : string;
  lr_quiz_score : option Z;
  lr_session_complete : bool;
}.

(** [continue_learning(user_response, conversation_history, skill_name,
    user_memory)]: the result and the memory store ([None] for
    [user_memory=None]).  [now1] and [now2] are the clock readings of
    [mark_skill_completed] and [add_session_summary]. *)
Definition continue_learning (chat : gateway) (now1 now2 : string) (user_response : string)
    (conversation_history : list message) (skill_name : string)
    (user_memory : option Memory.store) : learning_result * option Memory.store :=
  let messages := app conversation_history [mk_message "user" user_response] in
  let response_text := chat messages TUTOR_SYSTEM in
  let quiz_score := learning_scalar quiz_score_marker response_text in
  let session_complete := Py.contains response_text session_complete_marker in
  let messages := app messages [mk_message "assistant" response_text] in
  let user_memory' :=
    match user_memory, quiz_score with
    | Some st, Some q =>
        if py_int_truthy quiz_score && (70 <=? q)%Z && session_complete then
          let st1 := Memory.mark_skill_completed now1 skill_name (JInt q) st in
          Some (Memory.add_session_summary now2 "learning"
                  ("Completed " ++ skill_name ++ ". Score: " ++ PyStr.z_to_string q ++ "/100")
                  [JStr (skill_name ++ " validated at " ++ PyStr.z_to_string q ++ "/100")] st1)
        else Some st
    | _, _ => user_memory
    end in
  (mk_learning_result response_text messages skill_name quiz_score session_complete, user_memory').

(** The [validation_prompt] f-string. *)
Definition validation_prompt (skill_name : string) : string :=
  "Run a comprehensive 5-question validation quiz for " ++ skill_name ++ "." ++ nl ++
  "Use your web search to make the questions reflect CURRENT best practices and common interview questions." ++ nl ++ nl ++
  "After all 5 answers, provide:" ++ nl ++
  "- Overall score out of 100" ++ nl ++
  "- Areas of strength" ++ nl ++
  "- Areas needing more work" ++ nl ++
  "- Whether ready to list on CV / use in a job interview" ++ nl ++ nl ++
  "Format final result as:" ++ nl ++
  "[FINAL_SCORE: XX/100]" ++ nl ++
  "[READY_FOR_CV: yes/no]".

Record validation_result : Type := mk_validation_result {
  vr_message : string;
  vr_history : list message;
  vr_final_score : option Z;
  vr_ready_for_cv : bool;
}.

(** [run_final_validation(skill_name, conversation_history, user_memory)] *)
Definition run_final_validation (chat : gateway) (now1 now2 : string) (skill_name : string)
    (conversation_history : list message) (user_memory : option Memory.store)
    : validation_result * option Memory.store :=
  let messages := app conversation_history [mk_message "user" (validation_prompt skill_name)] in
  let response_text := chat messages TUTOR_SYSTEM in
  let final_score := learning_scalar final_score_marker response_text in
  let ready_for_cv := Py.contains (PyStr.lower response_text) ready_for_cv_marker in
  let user_memory' :=
    match user_memory, final_score with
    | Some st, Some z =>
        if py_int_truthy final_score then
          let st1 := Memory.mark_skill_completed now1 skill_name (JInt z) st in
          Some (Memory.add_session_summary now2 "validation"
                  ("Validated " ++ skill_name ++ ". Score: " ++ PyStr.z_to_string z
                   ++ "/100. CV ready: " ++ py_bool_str ready_for_cv) [] st1)
        else Some st
    | _, _ => user_memory
    end in
  (mk_validation_result response_text
     (app messages [mk_message "assistant" response_text]) final_score ready_for_cv,
   user_memory').

(* ------------------------------------------------------------------ *)
(** ** [UserMemory]: profile updates and the context prompt *)

Module MemoryExt.
Import Memory.

Definition set_profile (d : data_t) (p : record) : data_t :=
  mk_data p (skills d) (mentor_notes d) (learning_history d) (session_summaries d)
    (assessment_history d) (updated_at d).

Section WithDumps.

(** [json.dumps] of the logged argument, left abstract. *)
Variable dumps : json -> string.

(** [update_profile(profile_data)]:
    [self._data["profile"].update({k: v for k, v in profile_data.items() if v})]. *)
Definition update_profile (now : string) (profile_data : dict json) (st : store) : store :=
  let upd := filter (fun kv => py_truthy (snd kv)) profile_data in
  let st1 := with_data st (set_profile (data st) (dict_update (profile (data st)) upd)) in
  save now (log_event now "profile_update" (dumps (JObj profile_data)) st1).

End WithDumps.

Section WithStr.

(** [str(v)] of a JSON value, left abstract. *)
Variable py_str : json -> string.

(** [s[:n]] on a value read from the record: strings and lists slice,
    anything else raises ([None]). *)
Definition slice_to (n : nat) (v : json) : option json :=
  match v with
  | JStr s => Some (JStr (Py.take_cp n s))
  | JArr xs => Some (JArr (firstn n xs))
  | _ => None
  end.

(** [if p.get(k): lines.append(f"{label}{p[k]}{suffix}")] *)
Definition profile_line (p : record) (k label suffix : string) : list string :=
  match dict_get k p with
  | Some v => if py_truthy v then [label ++ py_str v ++ suffix] else []
  | None => []
  end.

(** [s.get("name", "")] as an item of [str.join]: a non-string raises. *)
Definition name_item (s : record) : option string :=
  match dict_get "name" s with
  | None => Some EmptyString
  | Some (JStr x) => Some x
  | Some _ => None
  end.

(** [if bucket: lines.append(f"{label}{', '.join(s.get('name', '') for s in shown)}")] *)
Definition bucket_lines (label : string) (bucket shown : list record) : option (list string) :=
  match bucket with
  | [] => Some []
  | _ =>
      match all_some (map name_item shown) with
      | Some names => Some [label ++ py_join ", " names]
      | None => None
      end
  end.

(** [f"  [{n['date'][:10]}] {n['note']}"] *)
Definition note_line (n : record) : option string :=
  match dict_get "date" n with
  | None => None
  | Some dt =>
      match slice_to 10 dt, dict_get "note" n with
      | Some dt', Some t => Some ("  [" ++ py_str dt' ++ "] " ++ py_str t)
      | _, _ => None
      end
  end.

(** [f"  [{s['date'][:10]}] {s['type']}: {s['summary'][:120]}"] *)
Definition session_line (s : record) : option string :=
  match dict_get "date" s with
  | None => None
  | Some dt =>
      match slice_to 10 dt, dict_get "type" s, dict_get "summary" s with
      | Some dt', Some ty, Some sm =>
          match slice_to 120 sm with
          | Some sm' => Some ("  [" ++ py_str dt' ++ "] " ++ py_str ty ++ ": " ++ py_str sm')
          | None => None
          end
      | _, _, _ => None
      end
  end.

(** [if items: lines.append(title); for n in items: lines.append(line(n))] *)
Definition titled_lines (title : string) (line : record -> option string) (items : list record)
    : option (list string) :=
  match items with
  | [] => Some []
  | _ => match all_some (map line items) with
         | Some ls => Some (title :: ls)
         | None => None
         end
  end.

(** [list(s)]: the code points of [s], each as a string of its bytes;
    a continuation byte stays with the byte before it. *)
Fixpoint chars_of (s : string) : list string :=
  match s with
  | EmptyString => []
  | String c r =>
      match chars_of r with
      | String d t :: gs =>
          if Py.is_cont d then String c (String d t) :: gs
          else String c EmptyString :: String d t :: gs
      | gs => String c EmptyString :: gs
      end
  end.

(** [if prefs.get("career_goals"): lines.append(f"\nCareer goals: {'; '.join(prefs['career_goals'][:3])}")] *)
Definition goals_lines (prefs : record) : option (list string) :=
  match dict_get "career_goals" prefs with
  | Some v =>
      if py_truthy v then
        let items :=
          match v with
          | JArr xs => all_some (map (fun x => match x with JStr s => Some s | _ => None end)
                                     (firstn 3 xs))
          | JStr s => Some (chars_of (Py.take_cp 3 s))
          | _ => None
          end in
        match items with
        | Some its => Some [nl ++ "Career goals: " ++ py_join "; " its]
        | None => None
        end
      else Some []
  | None => Some []
  end.

Definition context_header : string := "=== USER MEMORY ===".
Definition context_footer : string := "===================".

(** The [lines] list of [build_context_prompt()]; [prefs] is the
    ["preferences"] entry of the record, [None] a raised exception. *)
Definition build_context_lines (d : data_t) (prefs : record) : option (list string) :=
  let p := profile d in
  let l_profile :=
    (profile_line p "name" "Name: " "" ++
    profile_line p "current_role" "Current role: " "" ++
    profile_line p "target_role" "Target role: " "" ++
    profile_line p "years_experience" "Experience: " " years" ++
    profile_line p "location" "Location: " "")%list in
  let sk := skills d in
  match bucket_lines "Current skills: " (current sk) (firstn 8 (current sk)),
        bucket_lines "Recently validated skills: " (completed sk) (last_n 5 (completed sk)),
        bucket_lines "Currently learning: " (learning sk) (learning sk),
        titled_lines (nl ++ "Mentor notes:") note_line (last_n 3 (mentor_notes d)),
        titled_lines (nl ++ "Recent sessions:") session_line (last_n 2 (session_summaries d)),
        goals_lines prefs with
  | Some l1, Some l2, Some l3, Some l4, Some l5, Some l6 =>
      Some ([context_header] ++ l_profile ++ l1 ++ l2 ++ l3 ++ l4 ++ l5 ++ l6 ++ [context_footer])%list
  | _, _, _, _, _, _ => None
  end.

(** [build_context_prompt()] *)
Definition build_context_prompt (d : data_t) (prefs : record) : option string :=
  option_map (py_join nl) (build_context_lines d prefs).

End WithStr.

End MemoryExt.

(* ------------------------------------------------------------------ *)
(** ** [mentor_agent.py]: [chat_with_mentor], [_extract_json]; [app.py]: [page_chat] *)

Definition MENTOR_SYSTEM : string :=
  "You are MagicMentor — an elite AI career mentor with real-time web search." ++ nl ++ nl ++
  "Your approach:" ++ nl ++
  "- Deeply analyse the candidate's profile, strengths, and gaps" ++ nl ++
  "- Use your web search to get CURRENT job market data (don't rely on old knowledge)" ++ nl ++
  "- Give specific, actionable, honest advice — never generic platitudes" ++ nl ++
  "- Connect every recommendation to concrete job opportunities available right now" ++ nl ++
  "- Be encouraging but realistic about timelines and difficulty" ++ nl ++
  "- Adapt based on what you know about this person from their memory/history" ++ nl ++ nl ++
  "When analysing skill gaps, search for:" ++ nl ++
  "- Current job postings for the target role" ++ nl ++
  "- Which skills appear most in those postings" ++ nl ++
  "- Current average salaries in the candidate's location" ++ nl ++
  "- For each skill gap, find 2-3 specific courses/resources with real URLs valid as of today." ++ nl ++
  "  Include free options (official docs, YouTube, free tiers) AND paid courses when relevant." ++ nl ++ nl ++
  "You have persistent memory about this user. Use it for personalised, continuity-aware advice.".

Definition mentor_keywords : list string :=
  ["goal"; "want"; "dream"; "struggle"; "hate"; "love"; "worried"].

(** [any(kw in user_message.lower() for kw in [...])] *)
Definition mentions_keyword (user_message : string) : bool :=
  existsb (fun kw => Py.contains (PyStr.lower user_message) kw) mentor_keywords.

(** [f"User said: {user_message[:100]}"] *)
Definition mentor_note_text (user_message : string) : string :=
  "User said: " ++ Py.take_cp 100 user_message.

Record mentor_result : Type := mk_mentor_result {
  mr_response : string;
  mr_history : list message;
  mr_mentor_note : option string;
}.

Section Mentor.

Variable py_str : json -> string.

(** [chat_with_mentor(user_message, conversation_history, user_memory,
    profile_context)]; [None] when [build_context_prompt()] raises. *)
Definition chat_with_mentor (chat : gateway) (now : string) (user_message : string)
    (conversation_history : list message) (user_memory : option Memory.store)
    (prefs : Memory.record) (profile_context : string)
    : option (mentor_result * option Memory.store) :=
  let memory_context :=
    match user_memory with
    | Some st => MemoryExt.build_context_prompt py_str (Memory.data st) prefs
    | None => Some EmptyString
    end in
  match memory_context with
  | None => None
  | Some memory_context =>
      let system := MENTOR_SYSTEM ++
        (if String.eqb memory_context EmptyString then EmptyString
         else nl ++ nl ++ memory_context) ++
        (if String.eqb profile_context EmptyString then EmptyString
         else nl ++ nl ++ "Profile snapshot:" ++ nl ++ Py.take_cp 500 profile_context) in
      let messages := app conversation_history [mk_message "user" user_message] in
      let response_text := chat messages system in
      let '(mentor_note, user_memory') :=
        match user_memory with
        | Some st =>
            if mentions_keyword user_message then
              let note := mentor_note_text user_message in
              (Some note, Some (Memory.add_mentor_note now note st))
            else (None, user_memory)
        | None => (None, user_memory)
        end in
      Some (mk_mentor_result response_text
              (app messages [mk_message "assistant" response_text]) mentor_note,
            user_memory')
  end.

(** The welcome message [page_chat] seeds an empty chat with. *)
Definition chat_welcome (st : Memory.store) : string :=
  let name :=
    match dict_get "name" (Memory.profile (Memory.data st)) with
    | Some v => if py_truthy v then py_str v else "Aventureiro"
    | None => "Aventureiro"
    end in
  "Olá, " ++ name ++ "! 🌺 Sou o teu mentor de aprendizagem. " ++
  "Estou aqui para te ajudar a planear o teu desenvolvimento, " ++
  "analisar as tuas lacunas e orientar os teus próximos passos. " ++
  "O que queres trabalhar hoje?".

(** One run of [page_chat()] in [app.py] on a submitted [prompt]: the new
    [chat_history] and memory, [None] when the mentor call raises.
    [now1] and [now2] are the clock readings of the two [add_mentor_note]
    calls (inside [chat_with_mentor], then in [page_chat]). *)
Definition page_chat (chat : gateway) (now1 now2 : string) (prefs : Memory.record)
    (chat_history : list message) (st : Memory.store) (prompt : string)
    : option (list message * Memory.store) :=
  let chat_history :=
    match chat_history with
    | [] => [mk_message "assistant" (chat_welcome st)]
    | _ => chat_history
    end in
  if String.eqb prompt EmptyString then Some (chat_history, st)
  else
    match chat_with_mentor chat now1 prompt chat_history (Some st) prefs EmptyString with
    | None => None
    | Some (result, mem') =>
        let st1 := match mem' with Some s => s | None => st end in
        match mr_mentor_note result with
        | Some note =>
            if String.eqb note EmptyString then Some (mr_history result, st1)
            else Some (mr_history result, Memory.add_mentor_note now2 note st1)
        | None => Some (mr_history result, st1)
        end
    end.

End Mentor.

(** [_extract_json(text)]: the value returned, or the exception that
    escapes [except json.JSONDecodeError] ([room] is the nesting
    [json.loads] may enter). *)
Definition _extract_json (room : nat) (text : string) : json + Json.error :=
  let start := py_find "{"%char text in
  let end_ := (py_rfind "}"%char text + 1)%Z in
  let fallback := JObj [("raw_analysis", JStr text)] in
  if (0 <=? start)%Z && (start <? end_)%Z then
    match Json.loads room (py_slice text start end_) with
    | inl v => inl v
    | inr JSONDecodeError => inl fallback
    | inr e => inr e
    end
  else inl fallback.

(* ------------------------------------------------------------------ *)
(** ** [app.py]: the answer form of [_assess_quizzing] *)

(** [if submitted and answer.strip():]; as in the low-confidence branch, an
    exception of [continue_assessment] leaves the session as it was. *)
Definition assess_submit (room : nat) (chat : gateway) (answer : string) (s : session)
    : session :=
  if String.eqb (Py.strip answer) EmptyString then s
  else
    match continue_assessment room chat answer (quiz_history s) (quiz_skill s) with
    | inr _ => s
    | inl result =>
        let subtopics :=
          match r_subtopic_scores result with
          | [] => quiz_subtopics s
          | d => dict_update (quiz_subtopics s) d
          end in
        let gaps := match r_gaps result with [] => quiz_gaps s | g => g end in
        mk_session
          (if r_complete result then Results else quiz_state s)
          (quiz_skill s)
          (r_history result)
          (S (quiz_q_count s))
          (match r_score result with Some z => Some z | None => quiz_score s end)
          subtopics
          gaps
          (r_question_score result)
          (quiz_low_conf s)
    end.

(** The button pressed on the quiz form. *)
Inductive quiz_event : Type :=
| Submitted (answer : string)
| LowConfidence (answer : string)
| ExitQuiz.

(** [if exit_btn: ...], [if low_conf_btn: ...], [if submitted and ...]. *)
Definition quiz_step (room : nat) (chat : gateway) (e : quiz_event) (s : session)
    : session :=
  match e with
  | ExitQuiz =>
      mk_session Selecting (quiz_skill s) (quiz_history s) (quiz_q_count s) (quiz_score s)
        (quiz_subtopics s) (quiz_gaps s) (quiz_last_q_score s) (quiz_low_conf s)
  | LowConfidence a => assess_low_confidence room chat a s
  | Submitted a => assess_submit room chat a s
  end.

(** A sequence of form submissions; [page_assessment] only shows the form
    while [quiz_state] is ["quizzing"]. *)
Fixpoint quiz_run (room : nat) (chat : gateway) (es : list quiz_event) (s : session)
    : session :=
  match es with
  | [] => s
  | e :: es' =>
      match quiz_state s with
      | Quizzing => quiz_run room chat es' (quiz_step room chat e s)
      | _ => quiz_run room chat es' s
      end
  end.

(* ================================================================== *)
(** * Proofs *)

(* ------------------------------------------------------------------ *)
(** ** Depth-counted extraction *)

Lemma depth_scan_first_zero (o c : ascii) :
  forall s d i k,
    (0 < d)%Z -> (d + depth_of o c (Py.take k s) = 0)%Z ->
    (forall j, (j < k)%nat -> (0 < d + depth_of o c (Py.take j s))%Z) ->
    depth_scan o c s d i = Some (i + k)%nat.
Proof.
  induction s as [|ch r IH]; intros d i k Hd Hk Hj.
  - destruct k; simpl in Hk; lia.
  - destruct k as [|k]; [simpl in Hk; lia|].
    simpl in Hk |- *.
    assert (Hj' : forall j, (j < k)%nat ->
              (0 < d + ((if Ascii.eqb ch o then 1 else if Ascii.eqb ch c then -1 else 0)
                        + depth_of o c (Py.take j r)))%Z).
    { intros j Hjk. specialize (Hj (S j)). simpl in Hj. apply Hj. lia. }
    destruct (Ascii.eqb ch o).
    + replace (i + S k)%nat with (S i + k)%nat by lia.
      apply IH; [lia | lia | intros j Hjk; specialize (Hj' j Hjk); lia].
    + destruct (Ascii.eqb ch c).
      * destruct (Z.eqb_spec (d - 1) 0) as [E|E].
        -- destruct k as [|k]; [f_equal; lia|].
           specialize (Hj' 0%nat ltac:(lia)). simpl in Hj'. lia.
        -- destruct k as [|k]; [simpl in Hk; lia|].
           replace (i + S (S k))%nat with (S i + S k)%nat by lia.
           apply IH.
           ++ specialize (Hj' 0%nat ltac:(lia)). simpl in Hj'. lia.
           ++ lia.
           ++ intros j Hjk; specialize (Hj' j Hjk); lia.
      * destruct k as [|k]; [simpl in Hk; lia|].
        replace (i + S (S k))%nat with (S i + S k)%nat by lia.
        apply IH; [lia | lia | intros j Hjk; specialize (Hj' j Hjk); lia].
Qed.

Lemma depth_scan_never_zero (o c : ascii) :
  forall s d i,
    (0 < d)%Z ->
    (forall j, (j <= String.length s)%nat -> (0 < d + depth_of o c (Py.take j s))%Z) ->
    depth_scan o c s d i = None.
Proof.
  induction s as [|ch r IH]; intros d i Hd Hj; [reflexivity|].
  assert (H1 := Hj 1%nat ltac:(simpl; lia)). simpl in H1.
  assert (Hj' : forall j, (j <= String.length r)%nat ->
            (0 < d + ((if Ascii.eqb ch o then 1 else if Ascii.eqb ch c then -1 else 0)
                      + depth_of o c (Py.take j r)))%Z).
  { intros j Hjk. specialize (Hj (S j)). simpl in Hj. apply Hj. lia. }
  simpl. destruct (Ascii.eqb ch o).
  - apply IH; [lia | intros j Hjk; specialize (Hj' j Hjk); lia].
  - destruct (Ascii.eqb ch c).
    + rewrite Z.add_0_r in H1.
      destruct (Z.eqb_spec (d - 1) 0) as [E|E]; [lia|].
      apply IH; [lia | intros j Hjk; specialize (Hj' j Hjk); lia].
    + apply IH; [lia | intros j Hjk; specialize (Hj' j Hjk); lia].
Qed.

Lemma contains_open_brackets (ch : ascii) :
  Py.contains "{[" (String ch EmptyString) = (Ascii.eqb ch "{"%char || Ascii.eqb ch "["%char).
Proof.
  unfold Py.contains; simpl.
  destruct (ascii_dec ch "{"%char) as [->|N1]; [reflexivity|].
  destruct (ascii_dec ch "["%char) as [->|N2]; [reflexivity|].
  apply Ascii.eqb_neq in N1, N2. rewrite N1, N2. reflexivity.
Qed.

(** C4 (as the code has it): for a non-empty marker (Python's [split]
    rejects an empty one), [_extract_bracketed_json] returns [None] when the
    marker is absent, when nothing or something other than an opening brace
    or bracket follows it ([str.lstrip] skips any whitespace code point,
    non-ASCII ones included), and when the depth count never returns to zero.
    Otherwise it runs [json.loads] on exactly the prefix of the text after
    the marker at which the depth count, counting only the first
    character's kind of bracket, first returns to zero: it returns the
    parsed value, [None] when [json.loads] raises [JSONDecodeError], and
    lets every other exception of [json.loads] escape.  A [JSONDecodeError]
    never escapes. *)
Theorem extract_bracketed_json_spec (room : nat) (text marker : string)
  (Hm : marker <> EmptyString) :
  ((Py.contains text marker = false -> _extract_bracketed_json room text marker = inl None) /\
   (forall after, after_marker text marker = Some after ->
      (after = EmptyString -> _extract_bracketed_json room text marker = inl None) /\
      (forall ch r, after = String ch r -> ch <> "{"%char -> ch <> "["%char ->
         _extract_bracketed_json room text marker = inl None) /\
      (forall ch r, after = String ch r -> (ch = "{"%char \/ ch = "["%char) ->
         (forall k, (0 < k)%nat ->
            depth_of ch (close_of ch) (Py.take k after) = 0%Z ->
            (forall j, (0 < j < k)%nat -> (0 < depth_of ch (close_of ch) (Py.take j after))%Z) ->
            _extract_bracketed_json room text marker =
              match Json.loads room (Py.take k after) with
              | inl v => inl (Some v)
              | inr JSONDecodeError => inl None
              | inr e => inr e
              end) /\
         ((forall j, (0 < j <= String.length after)%nat ->
             (0 < depth_of ch (close_of ch) (Py.take j after))%Z) ->
          _extract_bracketed_json room text marker = inl None)))) /\
  _extract_bracketed_json room text marker <> inr JSONDecodeError.
Proof.
  clear Hm.
  split.
  2:{ unfold _extract_bracketed_json.
      destruct (negb (Py.contains text marker)); [discriminate|].
      destruct (Py.split_once marker text) as [[before rest]|]; [|discriminate].
      destruct (Py.lstrip rest) as [|first_char r]; [discriminate|].
      destruct (negb (Py.contains "{[" (String first_char EmptyString))); [discriminate|].
      destruct (depth_scan _ _ _ _ _); [|discriminate].
      destruct (Json.loads room _) as [v|[| |]]; discriminate. }
  unfold _extract_bracketed_json, after_marker.
  assert (Hc : Py.contains text marker =
               match Py.split_once marker text with Some _ => true | None => false end)
    by reflexivity.
  rewrite Hc.
  destruct (Py.split_once marker text) as [[before rest]|]; simpl.
  2:{ split; [reflexivity | discriminate]. }
  split; [discriminate|].
  intros after Ha. injection Ha as <-.
  split; [|split].
  - intros ->. reflexivity.
  - intros ch r -> N1 N2.
    rewrite contains_open_brackets.
    apply Ascii.eqb_neq in N1, N2. rewrite N1, N2. reflexivity.
  - intros ch r E Hch. rewrite E.
    rewrite contains_open_brackets.
    replace (Ascii.eqb ch "{"%char || Ascii.eqb ch "["%char) with true
      by (destruct Hch as [->| ->]; reflexivity).
    simpl. rewrite Ascii.eqb_refl.
    split.
    + intros k Hk Hz Hj.
    destruct k as [|k]; [lia|].
    try rewrite E in Hz; try rewrite E in Hj. simpl in Hz. rewrite Ascii.eqb_refl in Hz.
    rewrite (depth_scan_first_zero ch (close_of ch) r 1 1 k); [reflexivity|lia|lia|].
    intros j Hjk. specialize (Hj (S j) ltac:(lia)). simpl in Hj.
    rewrite Ascii.eqb_refl in Hj. exact Hj.
    + intros Hj.
    try rewrite E in Hj.
    rewrite (depth_scan_never_zero ch (close_of ch) r 1 1); [reflexivity|lia|].
    intros j Hjk. specialize (Hj (S j) ltac:(simpl; lia)). simpl in Hj.
    rewrite Ascii.eqb_refl in Hj. exact Hj.
Qed.

Lemma extract_bracketed_json_spec_witness :
  let marker := "[SUBTOPIC_SCORES:" in
  let payload := "{" ++ dq ++ "A" ++ dq ++ ": [" ++ dq ++ "[b]" ++ dq ++ "]}" in
  let text := "Final. " ++ marker ++ " " ++ payload ++ "] [ASSESSMENT_COMPLETE]" in
  marker <> EmptyString /\
  _extract_bracketed_json 1000 text marker =
    inl (Some (JObj [("A", JArr [JStr "[b]"])])).
Proof.
  intros marker payload text.
  assert (Hm : marker <> EmptyString) by discriminate.
  split; [exact Hm|].
  destruct (extract_bracketed_json_spec 1000 text marker Hm) as [[_ H] _].
  destruct (H (payload ++ "] [ASSESSMENT_COMPLETE]") ltac:(vm_compute; reflexivity))
    as [_ [_ H3]].
  destruct (H3 "{"%char (dq ++ "A" ++ dq ++ ": [" ++ dq ++ "[b]" ++ dq ++
                         "]}] [ASSESSMENT_COMPLETE]")
               ltac:(reflexivity) (or_introl eq_refl)) as [Hk _].
  rewrite (Hk 14%nat); [vm_compute; reflexivity | lia | vm_compute; reflexivity |].
  intros j [H1 H2].
  do 14 (destruct j as [|j]; [try lia; vm_compute; reflexivity|]). lia.
Defined.

(** C4 counterexample: the payload [[111...1]], a well-formed JSON array
    holding one 4301-digit integer, makes [json.loads] raise the plain
    [ValueError] of integer conversion; [except json.JSONDecodeError] does
    not catch it, so [_extract_bracketed_json] raises. *)
Lemma extract_bracketed_json_raises :
  let payload := "[" ++ String.concat EmptyString (List.repeat "1" 4301) ++ "]" in
  _extract_bracketed_json 1000 ("[GAPS: " ++ payload ++ "]") "[GAPS:" = inr IntTooLong.
Proof. vm_compute. reflexivity. Qed.

(* ------------------------------------------------------------------ *)
(** ** String lemmas *)

Lemma prefix_app (p s : string) : prefix p (p ++ s) = true.
Proof.
  induction p as [|c p IH]; simpl.
  - destruct s; reflexivity.
  - destruct (ascii_dec c c) as [_|N]; [exact IH | congruence].
Qed.

Lemma drop_app (p s : string) : Py.drop (String.length p) (p ++ s) = s.
Proof. induction p as [|c p IH]; simpl; auto. Qed.

Lemma prefix_spec (p s : string) :
  prefix p s = true -> s = p ++ Py.drop (String.length p) s.
Proof.
  revert s; induction p as [|c p IH]; intros s H; [reflexivity|].
  destruct s as [|d s]; simpl in H; [discriminate|].
  destruct (ascii_dec c d) as [<-|N]; [|discriminate].
  simpl. f_equal. apply IH, H.
Qed.

Lemma prefix_app_cases (t p u : string) :
  prefix t (p ++ u) = true ->
  prefix t p = true \/ exists t2, t = p ++ t2 /\ prefix t2 u = true.
Proof.
  revert t; induction p as [|c p IH]; intros t H.
  - right. exists t. split; [reflexivity | exact H].
  - destruct t as [|d t]; [left; reflexivity|].
    simpl in H. destruct (ascii_dec d c) as [<-|N]; [|discriminate].
    destruct (IH t H) as [H1|[t2 [-> H2]]].
    + left. simpl. destruct (ascii_dec d d); [exact H1 | congruence].
    + right. exists t2. split; [reflexivity | exact H2].
Qed.

Lemma split_once_eq (sep s : string) :
  Py.split_once sep s =
  if prefix sep s then Some (EmptyString, Py.drop (String.length sep) s)
  else match s with
       | EmptyString => None
       | String c r =>
           match Py.split_once sep r with
           | Some (b, a) => Some (String c b, a)
           | None => None
           end
       end.
Proof. destruct s; reflexivity. Qed.

Lemma split_once_spec (sep s b a : string) :
  Py.split_once sep s = Some (b, a) -> s = b ++ sep ++ a.
Proof.
  revert b a; induction s as [|c s IH]; intros b a H; rewrite split_once_eq in H.
  - destruct (prefix sep EmptyString) eqn:P; [|discriminate].
    injection H as <- <-. apply prefix_spec in P. exact P.
  - destruct (prefix sep (String c s)) eqn:P.
    + injection H as <- <-. simpl. apply prefix_spec, P.
    + destruct (Py.split_once sep s) as [[b' a']|] eqn:E; [|discriminate].
      injection H as <- <-. simpl. f_equal. apply IH. reflexivity.
Qed.

Lemma append_nil_r_tmp (s : string) : s ++ EmptyString = s.
Proof. induction s as [|c s IH]; simpl; [reflexivity | rewrite IH; reflexivity]. Qed.

Lemma str_length_app (s t : string) :
  String.length (s ++ t) = String.length s + String.length t.
Proof. induction s as [|c s IH]; simpl; [reflexivity | rewrite IH; reflexivity]. Qed.

Lemma str_append_assoc (s t u : string) : (s ++ t) ++ u = s ++ (t ++ u).
Proof. induction s as [|c s IH]; simpl; [reflexivity | rewrite IH; reflexivity]. Qed.

Lemma rev_last_decomp (s : string) :
  s <> EmptyString -> exists s0 c0, s = s0 ++ String c0 EmptyString.
Proof.
  induction s as [|c s IH]; intros H; [congruence|].
  destruct s as [|d s].
  - exists EmptyString, c. reflexivity.
  - destruct (IH ltac:(discriminate)) as [s0 [c0 E]].
    exists (String c s0), c0. rewrite E. reflexivity.
Qed.

Lemma mem_char_app (c : ascii) (s t : string) :
  mem_char c (s ++ t) = mem_char c s || mem_char c t.
Proof.
  induction s as [|d s IH]; simpl; [reflexivity|].
  rewrite IH. apply orb_assoc.
Qed.

(** A separator whose first character does not reappear in it is found
    right after a prefix that does not contain it. *)
Lemma split_once_first (c0 : ascii) (t pre rest : string) :
  mem_char c0 t = false ->
  Py.split_once (String c0 t) pre = None ->
  Py.split_once (String c0 t) (pre ++ String c0 t ++ rest) = Some (pre, rest).
Proof.
  intros Ht. induction pre as [|c p IH]; intros Hp.
  - change (Py.split_once (String c0 t) (String c0 t ++ rest) = Some (EmptyString, rest)).
    rewrite split_once_eq, prefix_app, drop_app. reflexivity.
  - change (Py.split_once (String c0 t) (String c (p ++ String c0 t ++ rest)) = Some (String c p, rest)).
    rewrite split_once_eq in Hp |- *.
    destruct (prefix (String c0 t) (String c p)) eqn:Pp; [discriminate|].
    destruct (Py.split_once (String c0 t) p) as [[b a]|] eqn:Sp; [discriminate|].
    rewrite (IH eq_refl).
    destruct (prefix (String c0 t) (String c (p ++ String c0 t ++ rest))) eqn:P; [|reflexivity].
    exfalso. simpl in P, Pp.
    destruct (ascii_dec c0 c) as [<-|N]; [|discriminate].
    destruct (prefix_app_cases t p _ P) as [H1|[t2 [Et H2]]]; [congruence|].
    destruct t2 as [|d t2].
    + rewrite Et, append_nil_r_tmp in Pp.
      pose proof (prefix_app p EmptyString) as Q. rewrite append_nil_r_tmp in Q. congruence.
    + simpl in H2. destruct (ascii_dec d c0) as [->|]; [|discriminate].
      rewrite Et, mem_char_app in Ht. simpl in Ht.
      rewrite Ascii.eqb_refl, orb_true_r in Ht. discriminate.
Qed.

Lemma split_once_skip (c0 : ascii) (t u v : string) :
  mem_char c0 u = false ->
  Py.split_once (String c0 t) (u ++ v) =
  match Py.split_once (String c0 t) v with
  | Some (b, a) => Some (u ++ b, a)
  | None => None
  end.
Proof.
  induction u as [|c u IH]; intros Hu.
  - simpl. destruct (Py.split_once (String c0 t) v) as [[b a]|]; reflexivity.
  - simpl in Hu. apply orb_false_iff in Hu as [Hc Hu].
    change (Py.split_once (String c0 t) (String c (u ++ v)) =
            match Py.split_once (String c0 t) v with
            | Some (b, a) => Some (String c (u ++ b), a)
            | None => None
            end).
    rewrite split_once_eq, (IH Hu).
    replace (prefix (String c0 t) (String c (u ++ v))) with false.
    + destruct (Py.split_once (String c0 t) v) as [[b a]|]; reflexivity.
    + simpl. apply Ascii.eqb_neq in Hc. destruct (ascii_dec c0 c); congruence.
Qed.

Lemma split_once_absent (c : ascii) (s : string) :
  mem_char c s = false -> Py.split_once (String c EmptyString) s = None.
Proof.
  intros H. rewrite <- (append_nil_r_tmp s), (split_once_skip c EmptyString s EmptyString H).
  reflexivity.
Qed.

Lemma split_nth0 (sep s : string) :
  nth_error (Py.split sep s) 0 =
  Some (match Py.split_once sep s with Some (b, _) => b | None => s end).
Proof.
  unfold Py.split. simpl. destruct (Py.split_once sep s) as [[b a]|]; reflexivity.
Qed.

Lemma split_nth1 (sep s b a : string) :
  sep <> EmptyString -> Py.split_once sep s = Some (b, a) ->
  nth_error (Py.split sep s) 1 =
  Some (match Py.split_once sep a with Some (b', _) => b' | None => a end).
Proof.
  intros Hs E. unfold Py.split.
  pose proof (split_once_spec _ _ _ _ E) as Es.
  assert (L : String.length s = S (String.length s - 1)).
  { rewrite Es, !str_length_app. destruct sep; [congruence|]. simpl. lia. }
  rewrite L. simpl. rewrite E. simpl.
  destruct (Py.split_once sep a) as [[b' a']|]; reflexivity.
Qed.

Lemma rev_str_app (s t : string) : Py.rev_str (s ++ t) = Py.rev_str t ++ Py.rev_str s.
Proof.
  induction s as [|c s IH]; simpl.
  - rewrite append_nil_r_tmp. reflexivity.
  - rewrite IH. apply str_append_assoc.
Qed.

Lemma rev_str_involutive (s : string) : Py.rev_str (Py.rev_str s) = s.
Proof.
  induction s as [|c s IH]; simpl; [reflexivity|].
  rewrite rev_str_app, IH. reflexivity.
Qed.

Lemma is_space2_ascii_l (c x : ascii) :
  (nat_of_ascii c < 128)%nat -> Py.is_space2 c x = false.
Proof.
  intros H. unfold Py.is_space2.
  replace (nat_of_ascii c =? 194)%nat with false by (symmetry; apply Nat.eqb_neq; lia).
  reflexivity.
Qed.

Lemma is_space2_ascii_r (x c : ascii) :
  (nat_of_ascii c < 128)%nat -> Py.is_space2 x c = false.
Proof.
  intros H. unfold Py.is_space2.
  replace (nat_of_ascii c =? 133)%nat with false by (symmetry; apply Nat.eqb_neq; lia).
  replace (nat_of_ascii c =? 160)%nat with false by (symmetry; apply Nat.eqb_neq; lia).
  apply andb_false_r.
Qed.

Lemma is_space3_ascii_l (c x y : ascii) :
  (nat_of_ascii c < 128)%nat -> Py.is_space3 c x y = false.
Proof.
  intros H. unfold Py.is_space3.
  replace (nat_of_ascii c =? 225)%nat with false by (symmetry; apply Nat.eqb_neq; lia).
  replace (nat_of_ascii c =? 226)%nat with false by (symmetry; apply Nat.eqb_neq; lia).
  replace (nat_of_ascii c =? 227)%nat with false by (symmetry; apply Nat.eqb_neq; lia).
  reflexivity.
Qed.

Lemma is_space3_ascii_r (x y c : ascii) :
  (nat_of_ascii c < 128)%nat -> Py.is_space3 x y c = false.
Proof.
  intros H. unfold Py.is_space3.
  replace (nat_of_ascii c =? 128)%nat with false by (symmetry; apply Nat.eqb_neq; lia).
  replace (128 <=? nat_of_ascii c)%nat with false by (symmetry; apply Nat.leb_gt; lia).
  replace (nat_of_ascii c =? 168)%nat with false by (symmetry; apply Nat.eqb_neq; lia).
  replace (nat_of_ascii c =? 169)%nat with false by (symmetry; apply Nat.eqb_neq; lia).
  replace (nat_of_ascii c =? 175)%nat with false by (symmetry; apply Nat.eqb_neq; lia).
  replace (nat_of_ascii c =? 159)%nat with false by (symmetry; apply Nat.eqb_neq; lia).
  rewrite !andb_false_r. reflexivity.
Qed.

(** [lstrip] stops at an ASCII character that is not whitespace. *)
Lemma lstrip_ascii_nonspace (c : ascii) (r : string) :
  Py.is_space c = false -> (nat_of_ascii c < 128)%nat -> Py.lstrip (String c r) = String c r.
Proof.
  intros H1 H2. simpl. rewrite H1.
  destruct r as [|c2 r2]; [reflexivity|].
  rewrite (is_space2_ascii_l c c2 H2).
  destruct r2 as [|c3 r3]; [reflexivity|].
  rewrite (is_space3_ascii_l c c2 c3 H2). reflexivity.
Qed.

Lemma lstrip_rev_ascii_nonspace (c : ascii) (r : string) :
  Py.is_space c = false -> (nat_of_ascii c < 128)%nat ->
  Py.lstrip_rev (String c r) = String c r.
Proof.
  intros H1 H2. simpl. rewrite H1.
  destruct r as [|c2 r2]; [reflexivity|].
  rewrite (is_space2_ascii_r c2 c H2).
  destruct r2 as [|c3 r3]; [reflexivity|].
  rewrite (is_space3_ascii_r c3 c2 c H2). reflexivity.
Qed.

(** [rstrip] stops at a last ASCII character that is not whitespace. *)
Lemma rstrip_last_nonspace (s : string) (c : ascii) :
  Py.is_space c = false -> (nat_of_ascii c < 128)%nat ->
  Py.rstrip (s ++ String c EmptyString) = s ++ String c EmptyString.
Proof.
  intros Hc Ha. unfold Py.rstrip. rewrite rev_str_app.
  change (Py.rev_str (String c EmptyString) ++ Py.rev_str s) with (String c (Py.rev_str s)).
  rewrite (lstrip_rev_ascii_nonspace c _ Hc Ha).
  change (Py.rev_str (String c (Py.rev_str s))) with
         (Py.rev_str (Py.rev_str s) ++ String c EmptyString).
  rewrite rev_str_involutive. reflexivity.
Qed.

Lemma is_digit_ascii (d : ascii) : Json.is_digit d = true -> (nat_of_ascii d < 128)%nat.
Proof.
  unfold Json.is_digit. intros H.
  apply andb_true_iff in H as [_ H2]. apply Nat.leb_le in H2. lia.
Qed.

Lemma is_space_digit (d : ascii) : Json.is_digit d = true -> Py.is_space d = false.
Proof.
  unfold Json.is_digit, Py.is_space. intros H.
  apply andb_true_iff in H as [H1 H2]. apply Nat.leb_le in H1, H2.
  apply orb_false_iff; split; apply andb_false_iff;
    [right | right]; apply Nat.leb_gt; lia.
Qed.

Lemma digits_us_all (s : string) : all_digits s = true -> digits_us true s = Some s.
Proof.
  induction s as [|d s IH]; simpl; intros H; [reflexivity|].
  apply andb_true_iff in H as [Hd Hs]. rewrite Hd, (IH Hs). reflexivity.
Qed.

Lemma mem_char_digits (c : ascii) (s : string) :
  Json.is_digit c = false -> all_digits s = true -> mem_char c s = false.
Proof.
  intros Hc. induction s as [|d s IH]; simpl; intros H; [reflexivity|].
  apply andb_true_iff in H as [Hd Hs]. rewrite (IH Hs), orb_false_r.
  apply Ascii.eqb_neq. intros ->. congruence.
Qed.

(** [int()] of a non-empty run of decimal digits is the number they denote,
    unless there are more than [Py.int_max_str_digits] of them. *)
Lemma py_int_digit_run (ds : string) :
  ds <> EmptyString -> all_digits ds = true ->
  py_int ds = if (String.length ds <=? Py.int_max_str_digits)%nat
              then Some (Json.z_of_digits ds) else None.
Proof.
  intros Hne Hall. destruct ds as [|d r]; [congruence|].
  simpl in Hall. apply andb_true_iff in Hall as [Hd Hr].
  unfold py_int, Py.strip.
  assert (Ls : Py.lstrip (String d r) = String d r)
    by (apply lstrip_ascii_nonspace; [apply is_space_digit | apply is_digit_ascii]; exact Hd).
  rewrite Ls.
  destruct (rev_last_decomp (String d r) ltac:(discriminate)) as [s0 [c0 E]].
  assert (Hc0 : Json.is_digit c0 = true).
  { assert (A : all_digits (s0 ++ String c0 EmptyString) = true).
    { rewrite <- E. simpl. rewrite Hd, Hr. reflexivity. }
    clear -A. induction s0 as [|x s0 IH]; simpl in A.
    - apply andb_true_iff in A as [A _]. exact A.
    - apply andb_true_iff in A as [_ A]. exact (IH A). }
  rewrite E, (rstrip_last_nonspace s0 c0 (is_space_digit c0 Hc0) (is_digit_ascii c0 Hc0)), <- E.
  replace (Ascii.eqb d "-"%char) with false
    by (symmetry; apply Ascii.eqb_neq; intros ->; discriminate).
  replace (Ascii.eqb d "+"%char) with false
    by (symmetry; apply Ascii.eqb_neq; intros ->; discriminate).
  cbn iota beta. cbn [digits_us]. rewrite Hd, (digits_us_all r Hr). reflexivity.
Qed.

Lemma py_int_digits (ds : string) :
  ds <> EmptyString -> all_digits ds = true ->
  (String.length ds <= Py.int_max_str_digits)%nat ->
  py_int ds = Some (Json.z_of_digits ds).
Proof.
  intros Hne Hall Hlen. rewrite (py_int_digit_run ds Hne Hall).
  apply Nat.leb_le in Hlen. rewrite Hlen. reflexivity.
Qed.

(* ------------------------------------------------------------------ *)
(** ** Scalar markers *)

Lemma scalar_of_part_wellformed (ds w : string) :
  ds <> EmptyString -> all_digits ds = true ->
  scalar_of_part ((" " ++ ds ++ "/100]") ++ w) =
  if (String.length ds <=? Py.int_max_str_digits)%nat
  then inl (Json.z_of_digits ds) else inr ValueError.
Proof.
  intros Hne Hds. unfold scalar_of_part. rewrite split_nth0.
  assert (E1 : (" " ++ ds ++ "/100]") ++ w =
               (" " ++ ds ++ "/100") ++ String "]" EmptyString ++ w)
    by (rewrite !str_append_assoc; reflexivity).
  assert (M1 : mem_char "]" (" " ++ ds ++ "/100") = false).
  { rewrite !mem_char_app, (mem_char_digits "]" ds); [reflexivity | reflexivity | exact Hds]. }
  rewrite E1, (split_once_first "]" EmptyString _ w eq_refl (split_once_absent _ _ M1)).
  destruct ds as [|d r]; [congruence|].
  pose proof Hds as Hds'. simpl in Hds'. apply andb_true_iff in Hds' as [Hd Hr].
  assert (S1 : Py.strip (" " ++ String d r ++ "/100") = String d r ++ "/100").
  { unfold Py.strip.
    change (Py.lstrip (" " ++ String d r ++ "/100")) with (Py.lstrip (String d (r ++ "/100"))).
    rewrite (lstrip_ascii_nonspace d _ (is_space_digit d Hd) (is_digit_ascii d Hd)).
    replace (String d (r ++ "/100")) with ((String d r ++ "/10") ++ String "0" EmptyString)
      by (rewrite str_append_assoc; reflexivity).
    rewrite rstrip_last_nonspace by (reflexivity || (apply Nat.ltb_lt; reflexivity)).
    rewrite str_append_assoc. reflexivity. }
  rewrite S1, split_nth0.
  replace (String d r ++ "/100") with (String d r ++ String "/" EmptyString ++ "100")
    by reflexivity.
  assert (M2 : mem_char "/" (String d r) = false)
    by (apply mem_char_digits; [reflexivity | exact Hds]).
  rewrite (split_once_first "/" EmptyString _ "100" eq_refl (split_once_absent _ _ M2)).
  rewrite py_int_digit_run by (discriminate || exact Hds).
  destruct (_ <=? _)%nat; reflexivity.
Qed.

Lemma scalar_try_wellformed (t pre ds post : string) :
  mem_char "[" t = false ->
  Py.split_once (String "[" t) pre = None ->
  ds <> EmptyString -> all_digits ds = true ->
  scalar_try (String "[" t) (pre ++ String "[" t ++ " " ++ ds ++ "/100]" ++ post)
  = if (String.length ds <=? Py.int_max_str_digits)%nat
    then inl (Json.z_of_digits ds) else inr ValueError.
Proof.
  intros Ht Hpre Hne Hds. unfold scalar_try.
  rewrite (split_nth1 (String "[" t) _ pre (" " ++ ds ++ "/100]" ++ post) ltac:(discriminate)
             (split_once_first _ _ _ _ Ht Hpre)).
  assert (Eu : " " ++ ds ++ "/100]" ++ post = (" " ++ ds ++ "/100]") ++ post)
    by (rewrite !str_append_assoc; reflexivity).
  assert (Mu : mem_char "[" (" " ++ ds ++ "/100]") = false).
  { rewrite !mem_char_app, (mem_char_digits "[" ds); [reflexivity | reflexivity | exact Hds]. }
  rewrite Eu, (split_once_skip "[" t _ post Mu).
  destruct (Py.split_once (String "[" t) post) as [[b a]|];
    apply scalar_of_part_wellformed; assumption.
Qed.

Lemma scalar_try_no_index_error (marker text : string) :
  marker <> EmptyString -> Py.contains text marker = true ->
  scalar_try marker text <> inr IndexError.
Proof.
  intros Hm Hc. unfold Py.contains in Hc.
  destruct (Py.split_once marker text) as [[b a]|] eqn:E; [|discriminate].
  unfold scalar_try. rewrite (split_nth1 _ _ _ _ Hm E).
  unfold scalar_of_part. rewrite split_nth0, split_nth0.
  destruct (py_int _); discriminate.
Qed.

Lemma contains_false_iff (s sep : string) :
  Py.contains s sep = false <-> Py.split_once sep s = None.
Proof.
  unfold Py.contains. destruct (Py.split_once sep s) as [[b a]|]; split; congruence.
Qed.

Lemma scalar_marker_bracket (t : string) :
  mem_char "[" t = false ->
  let marker := String "[" t in
  (forall text, Py.contains text marker = false -> scalar_marker marker text = None) /\
  (forall pre ds post, Py.contains pre marker = false ->
     ds <> EmptyString -> all_digits ds = true ->
     (String.length ds <= Py.int_max_str_digits)%nat ->
     scalar_marker marker (pre ++ marker ++ " " ++ ds ++ "/100]" ++ post)
     = Some (Json.z_of_digits ds)) /\
  (forall pre ds post, Py.contains pre marker = false ->
     ds <> EmptyString -> all_digits ds = true ->
     (Py.int_max_str_digits < String.length ds)%nat ->
     scalar_marker marker (pre ++ marker ++ " " ++ ds ++ "/100]" ++ post) = None) /\
  (forall text, Py.contains text marker = true -> scalar_try marker text <> inr IndexError) /\
  (forall text, scalar_try marker text = inr ValueError -> scalar_marker marker text = None).
Proof.
  intros Ht marker. split; [|split; [|split; [|split]]].
  - intros text H. unfold scalar_marker. rewrite H. reflexivity.
  - intros pre ds post Hpre Hne Hds Hlen. apply contains_false_iff in Hpre.
    unfold scalar_marker, Py.contains.
    rewrite (split_once_first _ _ _ _ Ht Hpre).
    unfold marker. rewrite (scalar_try_wellformed t pre ds post Ht Hpre Hne Hds).
    apply Nat.leb_le in Hlen. rewrite Hlen. reflexivity.
  - intros pre ds post Hpre Hne Hds Hlen. apply contains_false_iff in Hpre.
    unfold scalar_marker, Py.contains.
    rewrite (split_once_first _ _ _ _ Ht Hpre).
    unfold marker. rewrite (scalar_try_wellformed t pre ds post Ht Hpre Hne Hds).
    apply Nat.leb_gt in Hlen. rewrite Hlen. reflexivity.
  - intros text. apply scalar_try_no_index_error. discriminate.
  - intros text H. unfold scalar_marker. rewrite H.
    destruct (Py.contains text marker); reflexivity.
Qed.

(** C7: the scalar extractor for [[QUESTION_SCORE: ...]] and
    [[ASSESSMENT_SCORE: ...]] in [continue_assessment] returns the integer
    written between the marker and the [/] for a well-formed marker of at
    most [Py.int_max_str_digits] digits; it returns [None] when the marker
    is absent or when [int()] rejects the payload, a well-formed one of more
    digits included; the [split] indexing never raises [IndexError] once the marker
    is present, and both caught exceptions end in [None]. *)
Theorem scalar_marker_spec (marker : string)
  (Hm : marker = question_score_marker \/ marker = assessment_score_marker) :
  (forall text, Py.contains text marker = false -> scalar_marker marker text = None) /\
  (forall pre ds post, Py.contains pre marker = false ->
     ds <> EmptyString -> all_digits ds = true ->
     (String.length ds <= Py.int_max_str_digits)%nat ->
     scalar_marker marker (pre ++ marker ++ " " ++ ds ++ "/100]" ++ post)
     = Some (Json.z_of_digits ds)) /\
  (forall pre ds post, Py.contains pre marker = false ->
     ds <> EmptyString -> all_digits ds = true ->
     (Py.int_max_str_digits < String.length ds)%nat ->
     scalar_marker marker (pre ++ marker ++ " " ++ ds ++ "/100]" ++ post) = None) /\
  (forall text, Py.contains text marker = true -> scalar_try marker text <> inr IndexError) /\
  (forall text, scalar_try marker text = inr ValueError -> scalar_marker marker text = None).
Proof.
  destruct Hm as [-> | ->];
    [apply (scalar_marker_bracket "QUESTION_SCORE:") | apply (scalar_marker_bracket "ASSESSMENT_SCORE:")];
    reflexivity.
Qed.

Lemma scalar_marker_spec_witness :
  (question_score_marker = question_score_marker \/ question_score_marker = assessment_score_marker) /\
  scalar_marker question_score_marker ("Correct. " ++ question_score_marker ++ " " ++ "85" ++ "/100]" ++ " Next question")
  = Some 85%Z.
Proof.
  split; [left; reflexivity|].
  refine (proj1 (proj2 (scalar_marker_spec question_score_marker (or_introl eq_refl)))
            "Correct. " "85" " Next question" _ _ _ _);
    [reflexivity | discriminate | reflexivity | apply Nat.leb_le; reflexivity].
Defined.

(** C3 (as the code has it): when the text has no [</think>], the text
    before the first [<think>] is kept, whitespace-stripped, and everything
    from the unclosed [<think>] on is dropped. *)
Theorem strip_think_unclosed (pre body : string) :
  Py.contains pre think_open = false ->
  Py.contains (pre ++ think_open ++ body) think_close = false ->
  _strip_think (pre ++ think_open ++ body) = Py.strip pre.
Proof.
  intros Hpre Hclose. apply contains_false_iff in Hpre, Hclose.
  unfold _strip_think. rewrite Hclose.
  unfold think_open. rewrite (split_once_first "<" "think>" pre body eq_refl Hpre).
  reflexivity.
Qed.

Lemma strip_think_unclosed_witness :
  Py.contains "Answer: " think_open = false /\
  Py.contains ("Answer: " ++ think_open ++ "half-written reasoning") think_close = false /\
  _strip_think ("Answer: " ++ think_open ++ "half-written reasoning") = "Answer:".
Proof.
  split; [reflexivity|]. split; [reflexivity|].
  rewrite (strip_think_unclosed "Answer: " "half-written reasoning"); reflexivity.
Defined.

(** C3 counterexample: a truncated generation [<think>draft answer] has an
    opening delimiter and no closing one, and [_strip_think] returns the
    empty string, not the text unchanged. *)
Lemma strip_think_unclosed_drops :
  Py.contains "<think>draft answer" think_open = true /\
  Py.contains "<think>draft answer" think_close = false /\
  _strip_think "<think>draft answer" <> "<think>draft answer".
Proof. vm_compute. split; [reflexivity | split; [reflexivity | discriminate]]. Qed.

(** C9: the payload [{"a": "}"}] is one well-formed JSON object, yet
    [_extract_bracketed_json] returns [None] on
    [[SUBTOPIC_SCORES: {"a": "}"}]]: the brace inside the string literal
    closes the depth count early, and the cut text (eight characters,
    ending inside that string literal) raises [JSONDecodeError], which is
    caught.  [json.loads] is given room for 1000 nested arrays and objects,
    the default [sys.getrecursionlimit()]; the payload nests one. *)
Lemma extract_brace_in_string_literal :
  let payload := "{" ++ dq ++ "a" ++ dq ++ ": " ++ dq ++ "}" ++ dq ++ "}" in
  Json.loads 1000 payload = inl (JObj [("a", JStr "}")]) /\
  after_marker ("[SUBTOPIC_SCORES: " ++ payload ++ "]") "[SUBTOPIC_SCORES:"
    = Some (payload ++ "]") /\
  depth_scan "{" "}" (payload ++ "]") 0 0 = Some 8%nat /\
  Json.loads 1000 (Py.take 8 payload) = inr JSONDecodeError /\
  _extract_bracketed_json 1000 ("[SUBTOPIC_SCORES: " ++ payload ++ "]")
    "[SUBTOPIC_SCORES:" = inl None.
Proof. vm_compute. repeat split. Qed.

(* ------------------------------------------------------------------ *)
(** ** [build_gap_entries] lemmas *)

Lemma insert_by_score_perm (x : string * Z) (l : list (string * Z)) :
  Permutation (insert_by_score x l) (x :: l).
Proof.
  induction l as [|y l IH]; simpl; [reflexivity|].
  destruct (snd x <=? snd y)%Z; [reflexivity|].
  rewrite IH. apply perm_swap.
Qed.

Lemma sort_by_score_perm (l : list (string * Z)) : Permutation (sort_by_score l) l.
Proof.
  induction l as [|x l IH]; simpl; [reflexivity|].
  rewrite insert_by_score_perm, IH. reflexivity.
Qed.

Lemma insert_by_score_sorted (x : string * Z) (l : list (string * Z)) :
  Sorted Z.le (map snd l) -> Sorted Z.le (map snd (insert_by_score x l)).
Proof.
  induction l as [|y l IH]; simpl; intros H.
  - repeat constructor.
  - destruct (snd x <=? snd y)%Z eqn:E.
    + apply Z.leb_le in E. simpl. constructor; [exact H | constructor; exact E].
    + apply Z.leb_gt in E. apply Sorted_inv in H as [Hs Hh].
      constructor; [apply IH, Hs|].
      destruct l as [|z l]; simpl; [constructor; lia|].
      destruct (snd x <=? snd z)%Z; simpl; constructor; [lia|].
      inversion Hh; assumption.
Qed.

Lemma sort_by_score_sorted (l : list (string * Z)) : Sorted Z.le (map snd (sort_by_score l)).
Proof.
  induction l as [|x l IH]; simpl; [constructor|].
  apply insert_by_score_sorted, IH.
Qed.

Lemma gap_entries_from_names (skill : string) (ov : Z) (gr : dict string) :
  forall p items,
    map (fun e => (ge_skill e, ge_assessed_score e)) (gap_entries_from skill ov gr p items)
    = map (fun kv => (skill ++ em_dash_sep ++ fst kv, snd kv)) items.
Proof.
  intros p items. revert p.
  induction items as [|[k v] items IH]; intros p; simpl; [reflexivity|].
  rewrite IH. reflexivity.
Qed.

Lemma gap_entries_from_priorities (skill : string) (ov : Z) (gr : dict string) :
  forall p items,
    map ge_priority (gap_entries_from skill ov gr p items)
    = map (fun i => p + Z.of_nat i)%Z (seq 0 (length items)).
Proof.
  intros p items. revert p.
  induction items as [|[k v] items IH]; intros p; simpl; [reflexivity|].
  rewrite IH, <- seq_shift, map_map. f_equal; [lia|].
  apply map_ext. intros i. lia.
Qed.

(** C5: [build_gap_entries] yields one entry per subtopic scoring strictly
    below 70 (the entries' skill labels and scores are exactly those
    subtopics, up to order), none for a subtopic at 70 or above, ordered by
    ascending score, with priorities 1, 2, ... in that order. *)
Theorem build_gap_entries_spec (skill : string) (subtopic_scores : dict Z)
    (gaps : list json) (overall_score : Z) :
  let es := build_gap_entries skill subtopic_scores gaps overall_score in
  Permutation
    (map (fun e => (ge_skill e, ge_assessed_score e)) es)
    (map (fun kv => (skill ++ em_dash_sep ++ fst kv, snd kv))
         (filter (fun kv => (snd kv <? 70)%Z) subtopic_scores)) /\
  Forall (fun e => (ge_assessed_score e < 70)%Z) es /\
  Sorted Z.le (map ge_assessed_score es) /\
  map ge_priority es = map Z.of_nat (seq 1 (length es)).
Proof.
  intros es. unfold es, build_gap_entries.
  set (low := filter (fun kv => (snd kv <? 70)%Z) subtopic_scores).
  set (gr := gap_reasons_of subtopic_scores gaps).
  assert (Hsc : map ge_assessed_score (gap_entries_from skill overall_score gr 1 (sort_by_score low))
                = map snd (sort_by_score low)).
  { pose proof (gap_entries_from_names skill overall_score gr 1 (sort_by_score low)) as E.
    apply (f_equal (map snd)) in E. rewrite !map_map in E. exact E. }
  split; [|split; [|split]].
  - rewrite gap_entries_from_names. apply Permutation_map, sort_by_score_perm.
  - apply Forall_forall. intros e He.
    assert (Hin : In (ge_assessed_score e) (map snd (sort_by_score low)))
      by (rewrite <- Hsc; apply in_map, He).
    apply in_map_iff in Hin as [[k v] [Ev Hkv]]. simpl in Ev. subst v.
    apply (Permutation_in _ (sort_by_score_perm low)) in Hkv.
    unfold low in Hkv. apply filter_In in Hkv as [_ Hlt]. apply Z.ltb_lt, Hlt.
  - rewrite Hsc. apply sort_by_score_sorted.
  - rewrite gap_entries_from_priorities.
    assert (L : length (gap_entries_from skill overall_score gr 1 (sort_by_score low))
                = length (sort_by_score low)).
    { pose proof (gap_entries_from_names skill overall_score gr 1 (sort_by_score low)) as E.
      apply (f_equal (@length _)) in E. rewrite !length_map in E. exact E. }
    rewrite L, <- seq_shift, map_map. apply map_ext. intros i. lia.
Qed.

(* ------------------------------------------------------------------ *)
(** ** Low-confidence turns *)

Lemma contains_middle (a sep b : string) : Py.contains (a ++ sep ++ b) sep = true.
Proof.
  unfold Py.contains.
  induction a as [|c a IH].
  - simpl. rewrite split_once_eq, prefix_app. reflexivity.
  - change (String c a ++ sep ++ b) with (String c (a ++ sep ++ b)).
    rewrite split_once_eq.
    destruct (prefix sep (String c (a ++ sep ++ b))); [reflexivity|].
    destruct (Py.split_once sep (a ++ sep ++ b)) as [[x y]|]; [reflexivity | discriminate].
Qed.

(** C8 (as the code has it): on a low-confidence turn the flag
    [[LOW_CONFIDENCE]] is always in the text sent.  When [continue_assessment]
    returns, the per-turn score [quiz_last_q_score] is set to 25 whatever the
    answer text and the gateway's reply, and the subtopic-score map is only
    updated from the [SUBTOPIC_SCORES] the gateway returns on that turn.
    When it raises (a [SUBTOPIC_SCORES] or [GAPS] payload on which
    [json.loads] raises something other than [JSONDecodeError]), the turn
    records nothing: the session is unchanged. *)
Theorem low_confidence_turn (room : nat) (chat : gateway) (answer : string) (s : session) :
  let s' := assess_low_confidence room chat answer s in
  Py.contains (low_confidence_flag_text answer) low_confidence_marker = true /\
  match continue_assessment room chat (low_confidence_flag_text answer)
          (quiz_history s) (quiz_skill s) with
  | inl result =>
      quiz_last_q_score s' = Some 25%Z /\
      quiz_subtopics s' =
        match r_subtopic_scores result with
        | [] => quiz_subtopics s
        | d => dict_update (quiz_subtopics s) d
        end
  | inr _ => s' = s
  end.
Proof.
  split.
  2:{ unfold assess_low_confidence. cbv zeta.
      destruct (continue_assessment room chat (low_confidence_flag_text answer)
                  (quiz_history s) (quiz_skill s)) as [result|e];
        [split; reflexivity | reflexivity]. }
  unfold low_confidence_flag_text.
  destruct (String.eqb (Py.strip answer) EmptyString).
  - apply (contains_middle EmptyString).
  - rewrite <- (append_nil_r_tmp low_confidence_marker) at 1.
    replace (Py.strip answer ++ nl ++ nl ++ low_confidence_marker ++ EmptyString)
      with ((Py.strip answer ++ nl ++ nl) ++ low_confidence_marker ++ EmptyString)
      by (rewrite !str_append_assoc; reflexivity).
    apply contains_middle.
Qed.

(** C8 counterexample: a low-confidence turn (empty answer) whose gateway
    reply reports [SUBTOPIC_SCORES] with 90 for [JOINs] records 90, not 25,
    for that subtopic. *)
Lemma low_confidence_score_from_gateway :
  let chat : gateway := fun _ _ =>
    "Noted. [QUESTION_SCORE: 25/100]" ++ nl ++
    "[SUBTOPIC_SCORES: {" ++ dq ++ "JOINs" ++ dq ++ ": 90}]" in
  let s0 := mk_session Quizzing "SQL" [] 1 None [] [] None [] in
  let s1 := assess_low_confidence 1000 chat "" s0 in
  quiz_low_conf s1 = ["Q1"] /\
  dict_get "JOINs" (quiz_subtopics s1) = Some (JInt 90) /\
  dict_get "JOINs" (quiz_subtopics s1) <> Some (JInt 25).
Proof. vm_compute. split; [reflexivity | split; [reflexivity | discriminate]]. Qed.

(* ------------------------------------------------------------------ *)
(** ** The user memory store *)

Section MemoryProofs.
Import Memory.

(** C1 (spec-modelled [save_assessment]): saving an assessment always
    returns a store, appends exactly one assessment-history record carrying
    the skill and the score, writes the record through, and leaves the four
    skill buckets as they were. *)
Theorem save_assessment_spec (now skill : string) (score : Z) (subtopic_scores : dict json)
    (gap_entries : list gap_entry) (st : store) :
  let st' := save_assessment now skill score subtopic_scores gap_entries st in
  (exists r, assessment_history (data st') = app (assessment_history (data st)) [r] /\
             dict_get "skill" r = Some (JStr skill) /\ dict_get "score" r = Some (JInt score)) /\
  length (assessment_history (data st')) = S (length (assessment_history (data st))) /\
  current (skills (data st')) = current (skills (data st)) /\
  learning (skills (data st')) = learning (skills (data st)) /\
  completed (skills (data st')) = completed (skills (data st)) /\
  targets (skills (data st')) = targets (skills (data st)) /\
  durable st' = Some (data st').
Proof.
  simpl. split; [|split; [|repeat split]].
  - eexists. split; [reflexivity|]. split; reflexivity.
  - rewrite length_app. simpl. lia.
Qed.

(** C10: [mark_skill_completed] is not idempotent: two calls with the same
    name append two records with that name to [completed], whatever the
    state, also when the name was never in [learning]. *)
Theorem mark_skill_completed_twice (now1 now2 name : string) (score : json) (st : store) :
  let st2 := mark_skill_completed now2 name score (mark_skill_completed now1 name score st) in
  completed (skills (data st2)) =
    app (completed (skills (data st)))
        [[("name", JStr name); ("score", score); ("completed_at", JStr now1)];
         [("name", JStr name); ("score", score); ("completed_at", JStr now2)]] /\
  length (filter (has_name name) (completed (skills (data st2)))) =
    length (filter (has_name name) (completed (skills (data st)))) + 2.
Proof.
  simpl. rewrite <- app_assoc. split; [reflexivity|].
  rewrite filter_app, length_app. simpl.
  unfold has_name. simpl. rewrite String.eqb_refl. reflexivity.
Qed.

Lemma in_bucket_app (name : string) (l m : list record) :
  in_bucket name (app l m) <-> in_bucket name l \/ in_bucket name m.
Proof.
  unfold in_bucket. split.
  - intros [s [Hs Hn]]. apply in_app_or in Hs as [Hs|Hs]; [left|right]; eauto.
  - intros [[s [Hs Hn]]|[s [Hs Hn]]]; exists s; split; auto; apply in_or_app; auto.
Qed.

Lemma in_bucket_single (name : string) (r : record) :
  in_bucket name [r] <-> has_name name r = true.
Proof.
  unfold in_bucket. split.
  - intros [s [[<-|[]] Hn]]. exact Hn.
  - intros H. exists r. split; [left; reflexivity | exact H].
Qed.

Lemma in_bucket_filter (name n : string) (l : list record) :
  in_bucket name (filter (fun s => negb (has_name n s)) l) <->
  in_bucket name l /\ name <> n.
Proof.
  unfold in_bucket, has_name. split.
  - intros [s [Hs Hn]]. apply filter_In in Hs as [Hs Hneg]. split; [eauto|].
    intros ->. rewrite Hn in Hneg. discriminate.
  - intros [[s [Hs Hn]] Hne]. exists s. split; [|exact Hn].
    apply filter_In. split; [exact Hs|].
    destruct (dict_get "name" s) as [[]|]; try discriminate.
    apply String.eqb_eq in Hn. subst.
    match goal with |- negb (?a =? ?b) = true => destruct (String.eqb_spec a b) end;
      [congruence | reflexivity].
Qed.

End MemoryProofs.

Section LedgerProofs.
Import Memory.

Lemma ledger_step_disjoint (o : ledger_op) (st : store) :
  ledger_disjoint st -> keeps_apart st o -> ledger_disjoint (ledger_step o st).
Proof.
  intros H K name [Hl Hc].
  destruct o as [now n score | now n lvl | now cur tgt]; simpl in Hl, Hc, K.
  - apply in_bucket_filter in Hl as [Hl Hne].
    apply in_bucket_app in Hc as [Hc|Hc]; [exact (H name (conj Hl Hc))|].
    apply in_bucket_single in Hc. unfold has_name in Hc. simpl in Hc.
    apply String.eqb_eq in Hc. congruence.
  - unfold start_learning_append in Hl, Hc.
    destruct (existsb (has_name n) (learning (skills (data st)))).
    + exact (H name (conj Hl Hc)).
    + simpl in Hl, Hc.
      apply in_bucket_app in Hl as [Hl|Hl]; [exact (H name (conj Hl Hc))|].
      apply in_bucket_single in Hl. unfold has_name in Hl. simpl in Hl.
      apply String.eqb_eq in Hl. subst. exact (K Hc).
  - unfold update_skills in Hl, Hc.
    destruct cur, tgt; simpl in Hl, Hc; exact (H name (conj Hl Hc)).
Qed.

(** C2 (as the code has it): [mark_skill_completed name] always leaves
    [name] out of [learning] and in [completed]; and from a state where
    [learning] and [completed] share no name, any run of
    [mark_skill_completed], [update_skills] and [start_learning_session]
    appends keeps them apart as long as no append re-adds a name that is
    already completed ([start_learning_session] only checks [learning]). *)
Theorem ledger_disjoint_run :
  (forall now name score st,
     ~ in_bucket name (learning (skills (data (mark_skill_completed now name score st)))) /\
     in_bucket name (completed (skills (data (mark_skill_completed now name score st))))) /\
  (forall ops st, ledger_disjoint st -> run_keeps_apart ops st ->
     ledger_disjoint (run_ledger ops st)).
Proof.
  split.
  - intros now name score st. simpl. split.
    + intros Hl. apply in_bucket_filter in Hl as [_ Hne]. exact (Hne eq_refl).
    + apply in_bucket_app. right. apply in_bucket_single.
      unfold has_name. simpl. apply String.eqb_refl.
  - induction ops as [|o ops IH]; intros st H K; [exact H|].
    destruct K as [K1 K2]. simpl. apply IH; [|exact K2].
    apply ledger_step_disjoint; assumption.
Qed.

Lemma ledger_disjoint_run_witness :
  ledger_disjoint (default_store "2026-01-01") /\
  run_keeps_apart [LearnAppend "2026-01-01" "SQL" "beginner";
                   MarkCompleted "2026-01-02" "SQL" (JInt 90)] (default_store "2026-01-01") /\
  ledger_disjoint (run_ledger [LearnAppend "2026-01-01" "SQL" "beginner";
                               MarkCompleted "2026-01-02" "SQL" (JInt 90)]
                              (default_store "2026-01-01")).
Proof.
  assert (D : ledger_disjoint (default_store "2026-01-01")).
  { intros name [[s [[] _]] _]. }
  assert (K : run_keeps_apart [LearnAppend "2026-01-01" "SQL" "beginner";
                               MarkCompleted "2026-01-02" "SQL" (JInt 90)]
                              (default_store "2026-01-01")).
  { simpl. split; [intros [s [[] _]] | split; exact I]. }
  split; [exact D|]. split; [exact K|].
  exact (proj2 ledger_disjoint_run _ _ D K).
Defined.

(** C2 counterexample: completing [SQL] and then starting a learning
    session on [SQL] puts the name in both [learning] and [completed]. *)
Lemma learning_and_completed_overlap :
  let st := run_ledger [MarkCompleted "2026-01-01" "SQL" (JInt 90);
                        LearnAppend "2026-01-02" "SQL" "beginner"]
                       (default_store "2026-01-01") in
  in_bucket "SQL" (learning (skills (data st))) /\
  in_bucket "SQL" (completed (skills (data st))).
Proof.
  simpl. split; (eexists; split; [left; reflexivity | reflexivity]).
Qed.

End LedgerProofs.

Section RetentionProofs.
Import Memory.

Lemma last_n_rev {A} (n : nat) (l : list A) : last_n n l = rev (firstn n (rev l)).
Proof.
  unfold last_n. rewrite firstn_rev, rev_involutive. reflexivity.
Qed.

Lemma last_n_app_last_n {A} (n : nat) (l m : list A) :
  last_n n (app (last_n n l) m) = last_n n (app l m).
Proof.
  rewrite !last_n_rev, !rev_app_distr, rev_involutive, !firstn_app, firstn_firstn.
  f_equal. f_equal. f_equal. lia.
Qed.

Lemma last_n_length {A} (n : nat) (l : list A) : length (last_n n l) <= n.
Proof. unfold last_n. rewrite length_skipn. lia. Qed.

Lemma last_n_short {A} (n : nat) (l : list A) : length l <= n -> last_n n l = l.
Proof. intros H. unfold last_n. replace (length l - n) with 0 by lia. reflexivity. Qed.

Lemma note_step_notes (o : note_op) (st : store) :
  length (mentor_notes (data st)) <= 20 ->
  mentor_notes (data (note_step o st)) = last_n 20 (app (mentor_notes (data st)) (note_of o)).
Proof.
  intros H. destruct o; simpl; [reflexivity|].
  rewrite app_nil_r, last_n_short by exact H. reflexivity.
Qed.

Lemma note_step_summaries (o : note_op) (st : store) :
  length (session_summaries (data st)) <= 10 ->
  session_summaries (data (note_step o st))
  = last_n 10 (app (session_summaries (data st)) (summary_of o)).
Proof.
  intros H. destruct o; simpl; [|reflexivity].
  rewrite app_nil_r, last_n_short by exact H. reflexivity.
Qed.

Lemma note_step_durable (o : note_op) (st : store) :
  durable (note_step o st) = Some (data (note_step o st)).
Proof. destruct o; reflexivity. Qed.

(** C6: from a state whose [mentor_notes] hold at most 20 entries and whose
    [session_summaries] hold at most 10, every run of [add_mentor_note] and
    [add_session_summary] leaves the 20 most recent notes and the 10 most
    recent summaries (of the initial ones followed by the appended ones),
    so never more than 20 and 10, and after any non-empty run the record
    written to [memory.json] is the truncated one. *)
Theorem retention_window_run (ops : list note_op) (st : store) :
  length (mentor_notes (data st)) <= 20 ->
  length (session_summaries (data st)) <= 10 ->
  let st' := run_notes ops st in
  mentor_notes (data st') = last_n 20 (app (mentor_notes (data st)) (flat_map note_of ops)) /\
  session_summaries (data st')
    = last_n 10 (app (session_summaries (data st)) (flat_map summary_of ops)) /\
  length (mentor_notes (data st')) <= 20 /\
  length (session_summaries (data st')) <= 10 /\
  (ops <> [] -> durable st' = Some (data st')).
Proof.
  revert st. induction ops as [|o ops IH]; intros st Hn Hs st'.
  - simpl in st'. subst st'. simpl. rewrite !app_nil_r, !last_n_short by assumption.
    repeat split; try assumption. intros []; reflexivity.
  - assert (Hn1 : length (mentor_notes (data (note_step o st))) <= 20)
      by (rewrite note_step_notes by exact Hn; apply last_n_length).
    assert (Hs1 : length (session_summaries (data (note_step o st))) <= 10)
      by (rewrite note_step_summaries by exact Hs; apply last_n_length).
    destruct (IH (note_step o st) Hn1 Hs1) as [E1 [E2 [B1 [B2 D]]]].
    unfold st'. simpl run_notes. simpl flat_map.
    split; [|split; [|split; [exact B1 | split; [exact B2|]]]].
    + rewrite E1, note_step_notes, last_n_app_last_n, app_assoc by exact Hn. reflexivity.
    + rewrite E2, note_step_summaries, last_n_app_last_n, app_assoc by exact Hs. reflexivity.
    + intros _. destruct ops as [|o' ops'].
      * apply note_step_durable.
      * apply D. discriminate.
Qed.

Lemma retention_window_run_witness :
  length (mentor_notes (data (default_store "2026-01-01"))) <= 20 /\
  length (session_summaries (data (default_store "2026-01-01"))) <= 10 /\
  length (mentor_notes (data (run_notes (repeat (AddNote "2026-01-02" "keeps asking about CTEs") 25)
                                        (default_store "2026-01-01")))) <= 20.
Proof.
  split; [simpl; lia|]. split; [simpl; lia|].
  apply (retention_window_run (repeat (AddNote "2026-01-02" "keeps asking about CTEs") 25)
           (default_store "2026-01-01")); simpl; lia.
Defined.

End RetentionProofs.

(* ------------------------------------------------------------------ *)
(** ** Single-character separators, stripping, replacing *)

Lemma contains_single (c : ascii) (s : string) :
  Py.contains s (String c EmptyString) = mem_char c s.
Proof.
  unfold Py.contains. induction s as [|d r IH]; [reflexivity|].
  rewrite split_once_eq. simpl prefix. simpl mem_char.
  destruct (ascii_dec c d) as [<-|N].
  - rewrite Ascii.eqb_refl. destruct r; reflexivity.
  - replace (Ascii.eqb c d) with false by (symmetry; apply Ascii.eqb_neq; exact N).
    simpl. rewrite <- IH. destruct (Py.split_once (String c EmptyString) r) as [[b a]|]; reflexivity.
Qed.

Lemma split_once_single_before (c : ascii) (s b a : string) :
  Py.split_once (String c EmptyString) s = Some (b, a) -> mem_char c b = false.
Proof.
  revert b a. induction s as [|d r IH]; intros b a H; rewrite split_once_eq in H.
  - simpl in H. discriminate.
  - simpl prefix in H. destruct (ascii_dec c d) as [<-|N].
    + destruct r; injection H as <- _; reflexivity.
    + destruct (Py.split_once (String c EmptyString) r) as [[b' a']|] eqn:E; [|discriminate].
      injection H as <- <-. simpl. rewrite (IH _ _ eq_refl).
      apply Ascii.eqb_neq in N. rewrite N. reflexivity.
Qed.

Lemma lstrip_suffix_bounded (n : nat) :
  forall s, (String.length s <= n)%nat -> exists p, s = p ++ Py.lstrip s.
Proof.
  induction n as [|n IH]; intros s Hs.
  - destruct s; [exists EmptyString; reflexivity | simpl in Hs; lia].
  - destruct s as [|c r]; [exists EmptyString; reflexivity|].
    simpl in Hs. cbn [Py.lstrip].
    destruct (Py.is_space c).
    { destruct (IH r ltac:(lia)) as [p E]. exists (String c p). simpl. rewrite <- E. reflexivity. }
    destruct r as [|c2 r2]; [exists EmptyString; reflexivity|].
    simpl in Hs. destruct (Py.is_space2 c c2).
    { destruct (IH r2 ltac:(lia)) as [p E]. exists (String c (String c2 p)).
      simpl. rewrite <- E. reflexivity. }
    destruct r2 as [|c3 r3]; [exists EmptyString; reflexivity|].
    simpl in Hs. destruct (Py.is_space3 c c2 c3).
    { destruct (IH r3 ltac:(lia)) as [p E]. exists (String c (String c2 (String c3 p))).
      simpl. rewrite <- E. reflexivity. }
    exists EmptyString. reflexivity.
Qed.

Lemma lstrip_suffix (s : string) : exists p, s = p ++ Py.lstrip s.
Proof. exact (lstrip_suffix_bounded (String.length s) s (le_n _)). Qed.

Lemma lstrip_rev_suffix_bounded (n : nat) :
  forall s, (String.length s <= n)%nat -> exists p, s = p ++ Py.lstrip_rev s.
Proof.
  induction n as [|n IH]; intros s Hs.
  - destruct s; [exists EmptyString; reflexivity | simpl in Hs; lia].
  - destruct s as [|c r]; [exists EmptyString; reflexivity|].
    simpl in Hs. cbn [Py.lstrip_rev].
    destruct (Py.is_space c).
    { destruct (IH r ltac:(lia)) as [p E]. exists (String c p). simpl. rewrite <- E. reflexivity. }
    destruct r as [|c2 r2]; [exists EmptyString; reflexivity|].
    simpl in Hs. destruct (Py.is_space2 c2 c).
    { destruct (IH r2 ltac:(lia)) as [p E]. exists (String c (String c2 p)).
      simpl. rewrite <- E. reflexivity. }
    destruct r2 as [|c3 r3]; [exists EmptyString; reflexivity|].
    simpl in Hs. destruct (Py.is_space3 c3 c2 c).
    { destruct (IH r3 ltac:(lia)) as [p E]. exists (String c (String c2 (String c3 p))).
      simpl. rewrite <- E. reflexivity. }
    exists EmptyString. reflexivity.
Qed.

Lemma rstrip_prefix (s : string) : exists q, s = Py.rstrip s ++ q.
Proof.
  unfold Py.rstrip.
  destruct (lstrip_rev_suffix_bounded _ (Py.rev_str s) (le_n _)) as [p E].
  exists (Py.rev_str p).
  rewrite <- rev_str_app, <- E, rev_str_involutive. reflexivity.
Qed.

Lemma strip_infix (s : string) : exists p q, s = p ++ Py.strip s ++ q.
Proof.
  destruct (lstrip_suffix s) as [p E1]. destruct (rstrip_prefix (Py.lstrip s)) as [q E2].
  exists p, q. unfold Py.strip. rewrite <- E2. exact E1.
Qed.

Lemma replace_fuel_no_old (c : ascii) (nw : string) (fuel : nat) (s : string) :
  mem_char c nw = false -> String.length s < fuel ->
  mem_char c (PyStr.replace_fuel fuel (String c EmptyString) nw s) = false.
Proof.
  intros Hn. revert s. induction fuel as [|f IH]; intros s L; [lia|].
  simpl. destruct (Py.split_once (String c EmptyString) s) as [[b a]|] eqn:E.
  - pose proof (split_once_spec _ _ _ _ E) as Es.
    rewrite !mem_char_app, (split_once_single_before _ _ _ _ E), Hn, IH; [reflexivity|].
    rewrite Es, !str_length_app in L. simpl in L. lia.
  - rewrite <- contains_single. apply contains_false_iff. exact E.
Qed.

(** [s.replace(" ", "_")] leaves no space. *)
Lemma replace_space_no_space (s : string) :
  Py.contains (PyStr.replace " " "_" s) " " = false.
Proof.
  rewrite contains_single. unfold PyStr.replace.
  apply replace_fuel_no_old; [reflexivity | lia].
Qed.

(* ------------------------------------------------------------------ *)
(** ** [_strip_think] only removes text *)

(** [_strip_think] never adds text: its result is a contiguous piece of its
    input (so it is never longer than the input). *)
Theorem strip_think_infix (text : string) :
  exists pre post, text = pre ++ _strip_think text ++ post.
Proof.
  unfold _strip_think.
  destruct (Py.split_once think_close text) as [[b a]|] eqn:E1.
  - apply split_once_spec in E1. destruct (strip_infix a) as [p [q Ea]].
    exists (b ++ think_close ++ p), q. rewrite E1, Ea at 1. rewrite !str_append_assoc. reflexivity.
  - destruct (Py.split_once think_open text) as [[b a]|] eqn:E2.
    + apply split_once_spec in E2. destruct (strip_infix b) as [p [q Eb]].
      exists p, (q ++ think_open ++ a). rewrite E2, Eb at 1. rewrite !str_append_assoc. reflexivity.
    + exists EmptyString, EmptyString. simpl. rewrite append_nil_r_tmp. reflexivity.
Qed.

(* ------------------------------------------------------------------ *)
(** ** Gap entries: category and gap reasons *)

Lemma gap_entries_from_category (skill : string) (ov : Z) (gr : dict string) :
  forall prio items e, In e (gap_entries_from skill ov gr prio items) ->
  ge_category e = PyStr.replace " " "_" (PyStr.replace " / " "_" (PyStr.lower skill)).
Proof.
  intros prio items. revert prio. induction items as [|[sub sc] items IH]; intros prio e H.
  - destruct H.
  - destruct H as [<-|H]; [reflexivity | exact (IH _ _ H)].
Qed.

(** [build_gap_entries]: every entry carries the same [category], derived
    from the skill label alone, and that category contains no space. *)
Theorem build_gap_entries_category (skill : string) (subtopic_scores : dict Z)
    (gaps : list json) (overall_score : Z) (e : gap_entry) :
  In e (build_gap_entries skill subtopic_scores gaps overall_score) ->
  ge_category e = PyStr.replace " " "_" (PyStr.replace " / " "_" (PyStr.lower skill)) /\
  Py.contains (ge_category e) " " = false.
Proof.
  intros H. unfold build_gap_entries in H.
  apply gap_entries_from_category in H. split; [exact H|].
  rewrite H. apply replace_space_no_space.
Qed.

Lemma gap_reasons_fold_filter {V} (subtopic_scores : dict V) (gaps : list json) (acc : dict string) :
  let step := fun acc g =>
       match g with
       | JStr s =>
           match first_key_in s subtopic_scores with
           | Some sub => dict_set sub s acc
           | None => acc
           end
       | _ => acc
       end in
  fold_left step gaps acc =
  fold_left step (filter (fun g => match g with JStr _ => true | _ => false end) gaps) acc.
Proof.
  intros step. revert acc. induction gaps as [|g gaps IH]; intros acc; [reflexivity|].
  destruct g; simpl; apply IH.
Qed.

(** [build_gap_entries] ignores the entries of [gaps] that are not
    strings: the result is the same with them removed. *)
Theorem build_gap_entries_ignores_non_strings (skill : string) (subtopic_scores : dict Z)
    (gaps : list json) (overall_score : Z) :
  build_gap_entries skill subtopic_scores gaps overall_score =
  build_gap_entries skill subtopic_scores
    (filter (fun g => match g with JStr _ => true | _ => false end) gaps) overall_score.
Proof.
  unfold build_gap_entries, gap_reasons_of. rewrite <- gap_reasons_fold_filter. reflexivity.
Qed.

(* ------------------------------------------------------------------ *)
(** ** Learning agent: score parsing, completion, CV readiness *)

Lemma lower_no_upper (c : ascii) (s : string) :
  (65 <= nat_of_ascii c <= 90)%nat -> mem_char c (PyStr.lower s) = false.
Proof.
  intros Hc. induction s as [|d r IH]; [reflexivity|].
  simpl. rewrite IH, orb_false_r. apply Ascii.eqb_neq. intros E.
  unfold PyStr.lower_char in E.
  destruct ((65 <=? nat_of_ascii d) && (nat_of_ascii d <=? 90))%nat eqn:B.
  - apply andb_true_iff in B as [B1 B2]. apply Nat.leb_le in B1, B2.
    assert (N : nat_of_ascii c = nat_of_ascii d + 32).
    { rewrite E. apply nat_ascii_embedding. lia. }
    lia.
  - subst d. rewrite andb_false_iff in B. destruct B as [B|B]; apply Nat.leb_gt in B; lia.
Qed.

Lemma contains_head_char (s : string) (c : ascii) (t : string) :
  Py.contains s (String c t) = true -> mem_char c s = true.
Proof.
  unfold Py.contains. destruct (Py.split_once (String c t) s) as [[b a]|] eqn:E; [|discriminate].
  intros _. apply split_once_spec in E. rewrite E, mem_char_app. simpl.
  rewrite Ascii.eqb_refl. apply orb_true_r.
Qed.

Lemma contains_mem_char (s t : string) (c : ascii) :
  Py.contains s t = true -> mem_char c t = true -> mem_char c s = true.
Proof.
  unfold Py.contains. destruct (Py.split_once t s) as [[b a]|] eqn:E; [|discriminate].
  intros _ Ht. apply split_once_spec in E. rewrite E, !mem_char_app, Ht.
  rewrite orb_true_r. reflexivity.
Qed.

Lemma lower_no_ready_tag (s : string) :
  Py.contains (PyStr.lower s) ready_for_cv_marker = false.
Proof.
  destruct (Py.contains (PyStr.lower s) ready_for_cv_marker) eqn:E; [|reflexivity].
  apply (contains_mem_char _ _ "R"%char) in E; [|reflexivity].
  rewrite lower_no_upper in E; [discriminate|].
  split; apply Nat.leb_le; reflexivity.
Qed.

(** [run_final_validation] never reports [ready_for_cv = True]: it looks for
    the mixed-case tag [[READY_FOR_CV: yes]] in the lower-cased reply,
    which cannot contain the capital [R]. *)
Theorem run_final_validation_never_ready (chat : gateway) (now1 now2 skill_name : string)
    (conversation_history : list message) (user_memory : option Memory.store) :
  vr_ready_for_cv (fst (run_final_validation chat now1 now2 skill_name conversation_history
                          user_memory)) = false.
Proof.
  unfold run_final_validation. cbn [fst vr_ready_for_cv]. apply lower_no_ready_tag.
Qed.

Lemma rstrip_digits (ds : string) :
  ds <> EmptyString -> all_digits ds = true -> Py.rstrip ds = ds.
Proof.
  intros Hne Hds. destruct (rev_last_decomp ds Hne) as [s0 [c0 E]].
  assert (Hc0 : Json.is_digit c0 = true).
  { rewrite E in Hds. clear -Hds. induction s0 as [|x s0 IH]; simpl in Hds.
    - apply andb_true_iff in Hds as [A _]. exact A.
    - apply andb_true_iff in Hds as [_ A]. exact (IH A). }
  rewrite E. apply rstrip_last_nonspace; [apply is_space_digit | apply is_digit_ascii]; exact Hc0.
Qed.

Lemma strip_space_digits (ds : string) :
  ds <> EmptyString -> all_digits ds = true -> Py.strip (" " ++ ds) = ds.
Proof.
  intros Hne Hds. unfold Py.strip.
  destruct ds as [|d r]; [congruence|].
  pose proof Hds as Hd. simpl in Hd. apply andb_true_iff in Hd as [Hd _].
  change (Py.lstrip (" " ++ String d r)) with (Py.lstrip (String d r)).
  rewrite (lstrip_ascii_nonspace d _ (is_space_digit d Hd) (is_digit_ascii d Hd)).
  apply rstrip_digits; [discriminate | exact Hds].
Qed.

Lemma learning_part_wellformed (ds w : string) :
  ds <> EmptyString -> all_digits ds = true ->
  (String.length ds <= Py.int_max_str_digits)%nat ->
  match nth_error (Py.split "]" ((" " ++ ds ++ "/100]") ++ w)) 0 with
  | None => inr IndexError
  | Some score_str =>
      match nth_error (Py.split "/" score_str) 0 with
      | None => inr IndexError
      | Some lhs =>
          match py_int (Py.strip lhs) with
          | Some z => inl z
          | None => inr ValueError
          end
      end
  end = inl (Json.z_of_digits ds).
Proof.
  intros Hne Hds Hlen. rewrite split_nth0.
  assert (E1 : (" " ++ ds ++ "/100]") ++ w =
               (" " ++ ds ++ "/100") ++ String "]" EmptyString ++ w)
    by (rewrite !str_append_assoc; reflexivity).
  assert (M1 : mem_char "]" (" " ++ ds ++ "/100") = false).
  { rewrite !mem_char_app, (mem_char_digits "]" ds); [reflexivity | reflexivity | exact Hds]. }
  rewrite E1, (split_once_first "]" EmptyString _ w eq_refl (split_once_absent _ _ M1)).
  rewrite split_nth0.
  replace (" " ++ ds ++ "/100") with ((" " ++ ds) ++ String "/" EmptyString ++ "100")
    by (rewrite !str_append_assoc; reflexivity).
  assert (M2 : mem_char "/" (" " ++ ds) = false).
  { rewrite mem_char_app, (mem_char_digits "/" ds); [reflexivity | reflexivity | exact Hds]. }
  rewrite (split_once_first "/" EmptyString _ "100" eq_refl (split_once_absent _ _ M2)).
  rewrite strip_space_digits, py_int_digits by assumption. reflexivity.
Qed.

(** The learning agent's score parser reads the integer of a well-formed
    [[MARKER: N/100]] whose marker does not occur earlier. *)
Lemma learning_scalar_wellformed (t pre ds post : string) :
  mem_char "[" t = false ->
  Py.contains pre (String "[" t) = false ->
  ds <> EmptyString -> all_digits ds = true ->
  (String.length ds <= Py.int_max_str_digits)%nat ->
  learning_scalar (String "[" t) (pre ++ String "[" t ++ " " ++ ds ++ "/100]" ++ post)
  = Some (Json.z_of_digits ds).
Proof.
  intros Ht Hpre Hne Hds Hlen. apply contains_false_iff in Hpre.
  pose proof (split_once_first _ _ _ (" " ++ ds ++ "/100]" ++ post) Ht Hpre) as Sp.
  unfold learning_scalar, Py.contains. rewrite Sp.
  unfold learning_scalar_try.
  rewrite (split_nth1 (String "[" t) _ pre (" " ++ ds ++ "/100]" ++ post) ltac:(discriminate) Sp).
  assert (Eu : " " ++ ds ++ "/100]" ++ post = (" " ++ ds ++ "/100]") ++ post)
    by (rewrite !str_append_assoc; reflexivity).
  assert (Mu : mem_char "[" (" " ++ ds ++ "/100]") = false).
  { rewrite !mem_char_app, (mem_char_digits "[" ds); [reflexivity | reflexivity | exact Hds]. }
  rewrite Eu, (split_once_skip "[" t _ post Mu).
  destruct (Py.split_once (String "[" t) post) as [[b a]|];
    rewrite (learning_part_wellformed ds _ Hne Hds Hlen); reflexivity.
Qed.

Section LearningProofs.
Import Memory.

(** [run_final_validation] with a memory store: a reply carrying a
    well-formed [[FINAL_SCORE: N/100]] yields the score N (for N of at
    most [Py.int_max_str_digits] digits); any non-zero
    score, also one below 70, moves the skill out of [learning], appends
    it to [completed] with that score, and records a validation summary
    that always says [CV ready: False]; a missing, unparsable or zero
    score leaves the memory as it was. *)
Theorem run_final_validation_memory (chat : gateway) (now1 now2 skill_name : string)
    (conversation_history : list message) (st : store) :
  let res := run_final_validation chat now1 now2 skill_name conversation_history (Some st) in
  let reply := chat (app conversation_history [mk_message "user" (validation_prompt skill_name)])
                    TUTOR_SYSTEM in
  (forall pre ds post,
     reply = pre ++ final_score_marker ++ " " ++ ds ++ "/100]" ++ post ->
     Py.contains pre final_score_marker = false -> ds <> EmptyString -> all_digits ds = true ->
     (String.length ds <= Py.int_max_str_digits)%nat ->
     vr_final_score (fst res) = Some (Json.z_of_digits ds)) /\
  (forall z, vr_final_score (fst res) = Some z -> z <> 0%Z ->
     exists st', snd res = Some st' /\
       ~ in_bucket skill_name (learning (skills (data st'))) /\
       completed (skills (data st')) =
         app (completed (skills (data st)))
             [[("name", JStr skill_name); ("score", JInt z); ("completed_at", JStr now1)]] /\
       session_summaries (data st') =
         last_n 10 (app (session_summaries (data st))
           [[("date", JStr now2); ("type", JStr "validation");
             ("summary", JStr ("Validated " ++ skill_name ++ ". Score: " ++ PyStr.z_to_string z
                               ++ "/100. CV ready: False"));
             ("key_insights", JArr [])]])) /\
  ((vr_final_score (fst res) = None \/ vr_final_score (fst res) = Some 0%Z) -> snd res = Some st).
Proof.
  cbv zeta. unfold run_final_validation. cbv zeta. cbn [fst snd vr_final_score].
  split; [|split].
  - intros pre ds post E Hpre Hne Hds Hlen.
    rewrite E. apply learning_scalar_wellformed;
      [reflexivity | exact Hpre | exact Hne | exact Hds | exact Hlen].
  - intros z Ez Hz. rewrite Ez, lower_no_ready_tag.
    unfold py_int_truthy. replace (z =? 0)%Z with false by (symmetry; apply Z.eqb_neq; exact Hz).
    cbn [negb]. eexists. split; [reflexivity|]. split; [|split; reflexivity].
    cbn. intros Hl. apply in_bucket_filter in Hl as [_ Hne]. exact (Hne eq_refl).
  - intros H. destruct H as [H|H]; rewrite H; reflexivity.
Qed.

(** [continue_learning] with a memory store: a reply carrying a
    well-formed [[QUIZ_SCORE: N/100]] yields the score N (for N of at
    most [Py.int_max_str_digits] digits); a score of at
    least 70 together with [[SESSION_COMPLETE]] moves the skill out of
    [learning], appends it to [completed] with that score and records a
    learning summary; a missing score, a score below 70 or a reply without
    [[SESSION_COMPLETE]] leaves the memory as it was. *)
Theorem continue_learning_memory (chat : gateway) (now1 now2 user_response : string)
    (conversation_history : list message) (skill_name : string) (st : store) :
  let res := continue_learning chat now1 now2 user_response conversation_history skill_name (Some st) in
  let reply := chat (app conversation_history [mk_message "user" user_response]) TUTOR_SYSTEM in
  (forall pre ds post,
     reply = pre ++ quiz_score_marker ++ " " ++ ds ++ "/100]" ++ post ->
     Py.contains pre quiz_score_marker = false -> ds <> EmptyString -> all_digits ds = true ->
     (String.length ds <= Py.int_max_str_digits)%nat ->
     lr_quiz_score (fst res) = Some (Json.z_of_digits ds)) /\
  lr_session_complete (fst res) = Py.contains reply session_complete_marker /\
  (forall q, lr_quiz_score (fst res) = Some q -> (70 <= q)%Z ->
     lr_session_complete (fst res) = true ->
     exists st', snd res = Some st' /\
       ~ in_bucket skill_name (learning (skills (data st'))) /\
       completed (skills (data st')) =
         app (completed (skills (data st)))
             [[("name", JStr skill_name); ("score", JInt q); ("completed_at", JStr now1)]] /\
       session_summaries (data st') =
         last_n 10 (app (session_summaries (data st))
           [[("date", JStr now2); ("type", JStr "learning");
             ("summary", JStr ("Completed " ++ skill_name ++ ". Score: " ++ PyStr.z_to_string q
                               ++ "/100"));
             ("key_insights", JArr [JStr (skill_name ++ " validated at "
                                          ++ PyStr.z_to_string q ++ "/100")])]])) /\
  ((forall q, lr_quiz_score (fst res) = Some q -> (q < 70)%Z) \/
   lr_session_complete (fst res) = false -> snd res = Some st).
Proof.
  cbv zeta. unfold continue_learning. cbv zeta. cbn [fst snd lr_quiz_score lr_session_complete].
  split; [|split; [reflexivity|split]].
  - intros pre ds post E Hpre Hne Hds Hlen.
    rewrite E. apply learning_scalar_wellformed;
      [reflexivity | exact Hpre | exact Hne | exact Hds | exact Hlen].
  - intros q Eq Hq Hc. rewrite Eq, Hc.
    unfold py_int_truthy. replace (q =? 0)%Z with false by (symmetry; apply Z.eqb_neq; lia).
    replace (70 <=? q)%Z with true by (symmetry; apply Z.leb_le; exact Hq).
    cbn [negb andb]. eexists. split; [reflexivity|]. split; [|split; reflexivity].
    cbn. intros Hl. apply in_bucket_filter in Hl as [_ Hne]. exact (Hne eq_refl).
  - intros H.
    destruct (learning_scalar quiz_score_marker _) as [q|] eqn:Eq; [|reflexivity].
    destruct H as [H|H].
    + specialize (H q eq_refl). replace (70 <=? q)%Z with false by (symmetry; apply Z.leb_gt; exact H).
      rewrite andb_false_r, andb_false_l. reflexivity.
    + rewrite H, andb_false_r. reflexivity.
Qed.

End LearningProofs.

Lemma mentions_keyword_empty : mentions_keyword EmptyString = false.
Proof. reflexivity. Qed.

Lemma mentor_note_text_nonempty (m : string) :
  String.eqb (mentor_note_text m) EmptyString = false.
Proof. reflexivity. Qed.

Section ChatProofs.
Import Memory.

(** One submission on the chat page: an empty history is first seeded
    with the welcome message; an empty prompt changes nothing else; a
    non-empty prompt appends exactly the user message and the mentor's
    reply to the history; a prompt with one of the keywords stores the
    same note [User said: ...] twice (once inside [chat_with_mentor], once
    in [page_chat]) in the bounded [mentor_notes], and any other prompt
    leaves the memory untouched. *)
Theorem page_chat_turn (py_str : json -> string) (chat : gateway) (now1 now2 : string)
    (prefs : record) (chat_history : list message) (st : store) (prompt : string)
    (h' : list message) (st' : store) :
  page_chat py_str chat now1 now2 prefs chat_history st prompt = Some (h', st') ->
  let hist0 := match chat_history with
               | [] => [mk_message "assistant" (chat_welcome py_str st)]
               | _ => chat_history
               end in
  (prompt = EmptyString -> h' = hist0 /\ st' = st) /\
  (prompt <> EmptyString ->
     exists reply, h' = app hist0 [mk_message "user" prompt; mk_message "assistant" reply]) /\
  (mentions_keyword prompt = false -> st' = st) /\
  (mentions_keyword prompt = true ->
     mentor_notes (data st') =
       last_n 20 (app (mentor_notes (data st))
         [[("date", JStr now1); ("note", JStr (mentor_note_text prompt))];
          [("date", JStr now2); ("note", JStr (mentor_note_text prompt))]])).
Proof.
  intros H hist0. unfold page_chat in H. fold hist0 in H.
  destruct (String.eqb prompt EmptyString) eqn:E.
  - apply String.eqb_eq in E. subst prompt. injection H as <- <-.
    rewrite mentions_keyword_empty.
    split; [auto|split; [intros C; congruence|split; [auto|discriminate]]].
  - assert (Hne : prompt <> EmptyString) by (intros C; subst; discriminate).
    unfold chat_with_mentor in H.
    destruct (MemoryExt.build_context_prompt py_str (data st) prefs) as [ctx|]; [|discriminate].
    cbv zeta in H.
    destruct (mentions_keyword prompt) eqn:K.
    + cbv beta iota in H. cbn [mr_mentor_note mr_history] in H. rewrite mentor_note_text_nonempty in H.
      injection H as <- <-.
      split; [intros C; contradiction|split; [|split; [discriminate|]]].
      * intros _. eexists. rewrite <- app_assoc. reflexivity.
      * intros _. cbn [add_mentor_note save data mentor_notes log_event with_data set_mentor_notes].
        rewrite last_n_app_last_n, <- app_assoc. reflexivity.
    + cbv beta iota in H. cbn [mr_mentor_note mr_history] in H. injection H as <- <-.
      split; [intros C; contradiction|split; [|split; [auto|discriminate]]].
      intros _. eexists. rewrite <- app_assoc. reflexivity.
Qed.

End ChatProofs.

Lemma page_chat_turn_witness :
  exists h' st',
    page_chat (fun _ => "x") (fun _ _ => "Keep going.") "t1" "t2" [] []
      (Memory.default_store "t0") "I want a data job" = Some (h', st') /\
    Memory.mentor_notes (Memory.data st') =
      [[("date", JStr "t1"); ("note", JStr "User said: I want a data job")];
       [("date", JStr "t2"); ("note", JStr "User said: I want a data job")]].
Proof.
  pose proof (page_chat_turn (fun _ => "x") (fun _ _ => "Keep going.") "t1" "t2" [] []
                (Memory.default_store "t0") "I want a data job") as T.
  destruct (page_chat (fun _ => "x") (fun _ _ => "Keep going.") "t1" "t2" [] []
              (Memory.default_store "t0") "I want a data job") as [[h' st']|] eqn:E;
    [|vm_compute in E; discriminate].
  exists h', st'. split; [reflexivity|].
  destruct (T h' st' eq_refl) as (_ & _ & _ & N). rewrite (N eq_refl). reflexivity.
Defined.

Lemma dict_get_set {V} (k k' : string) (v : V) (d : dict V) :
  dict_get k (dict_set k' v d) = if String.eqb k k' then Some v else dict_get k d.
Proof.
  induction d as [|[k1 v1] d IH]; cbn [dict_set dict_get].
  - reflexivity.
  - destruct (String.eqb k' k1) eqn:E1.
    + apply String.eqb_eq in E1. subst k1. cbn [dict_get].
      destruct (String.eqb k k'); reflexivity.
    + cbn [dict_get]. destruct (String.eqb k k1) eqn:E2.
      * apply String.eqb_eq in E2. subst k1.
        destruct (String.eqb k k') eqn:E3; [|reflexivity].
        apply String.eqb_eq in E3. subst k'. rewrite String.eqb_refl in E1. discriminate.
      * exact IH.
Qed.

Lemma dict_get_app {V} (k : string) (l m : dict V) :
  dict_get k (app l m) = match dict_get k l with Some v => Some v | None => dict_get k m end.
Proof.
  induction l as [|[k1 v1] l IH]; cbn [app dict_get]; [reflexivity|].
  destruct (String.eqb k k1); [reflexivity|exact IH].
Qed.

Lemma dict_get_update {V} (k : string) (d e : dict V) :
  dict_get k (dict_update d e) =
  match dict_get k (rev e) with Some v => Some v | None => dict_get k d end.
Proof.
  unfold dict_update. revert d.
  induction e as [|[k1 v1] e IH]; intros d; cbn [fold_left rev]; [reflexivity|].
  rewrite IH, dict_get_app. cbn [dict_get].
  destruct (dict_get k (rev e)); [reflexivity|].
  rewrite dict_get_set. destruct (String.eqb k k1); reflexivity.
Qed.

Lemma dict_set_keys {V} (k : string) (v : V) (d : dict V) (k0 : string) :
  In k0 (map fst d) -> In k0 (map fst (dict_set k v d)).
Proof.
  induction d as [|[k1 v1] d IH]; cbn [map fst dict_set]; [intros []|].
  destruct (String.eqb k k1) eqn:E.
  - apply String.eqb_eq in E. subst k1. auto.
  - intros [H|H]; cbn [map fst In]; auto.
Qed.

Lemma dict_update_keys {V} (d e : dict V) (k0 : string) :
  In k0 (map fst d) -> In k0 (map fst (dict_update d e)).
Proof.
  unfold dict_update. revert d.
  induction e as [|[k1 v1] e IH]; intros d H; cbn [fold_left]; [exact H|].
  apply IH, dict_set_keys, H.
Qed.

Section ProfileProofs.
Import Memory.

(** [update_profile(profile_data)]: looking up a key of the profile
    afterwards gives the last truthy value [profile_data] binds it to, and
    the old value when it binds it to no truthy value ([None], [""], [0],
    [[]], ...); the event is logged with the whole [profile_data] and the
    record is written through to [memory.json]. *)
Theorem update_profile_lookup (dumps : json -> string) (now : string)
    (profile_data : dict json) (st : store) (k : string) :
  let st' := MemoryExt.update_profile dumps now profile_data st in
  dict_get k (profile (data st')) =
    match dict_get k (rev (filter (fun kv => py_truthy (snd kv)) profile_data)) with
    | Some v => Some v
    | None => dict_get k (profile (data st))
    end /\
  log st' = app (log st) [mk_log_entry now "profile_update" (dumps (JObj profile_data))] /\
  durable st' = Some (data st').
Proof.
  cbn zeta. split; [|split; reflexivity].
  apply dict_get_update.
Qed.

(** [start_learning_session] adds a skill to [learning] at most once:
    after it, the skill is listed in [learning], and a second session on
    the same skill, at any level and time, leaves the memory as it is. *)
Theorem start_learning_append_idempotent (now now' skill_name user_level user_level' : string)
    (st : store) :
  let st' := start_learning_append now skill_name user_level st in
  in_bucket skill_name (learning (skills (data st'))) /\
  start_learning_append now' skill_name user_level' st' = st'.
Proof.
  cbn zeta. unfold start_learning_append.
  destruct (existsb (has_name skill_name) (learning (skills (data st)))) eqn:E.
  - rewrite E. apply existsb_exists in E as [s [Hs Hn]]. split; [exists s; auto|reflexivity].
  - assert (Hnew : has_name skill_name [("name", JStr skill_name); ("level", JStr user_level)] = true)
      by (unfold has_name; cbn [dict_get]; rewrite String.eqb_refl; apply String.eqb_refl).
    split.
    + cbn. exists [("name", JStr skill_name); ("level", JStr user_level)].
      split; [apply in_or_app; right; left; reflexivity | exact Hnew].
    + cbn [save with_data set_skills data skills learning].
      rewrite existsb_app. cbn [existsb]. rewrite Hnew, orb_true_r. reflexivity.
Qed.

End ProfileProofs.

Lemma all_some_length {A} (l : list (option A)) (r : list A) :
  all_some l = Some r -> length r = length l.
Proof.
  revert r. induction l as [|[x|] l IH]; intros r H; cbn [all_some] in H.
  - injection H as <-. reflexivity.
  - destruct (all_some l) as [r'|] eqn:E; [|discriminate].
    injection H as <-. cbn [length]. f_equal. apply IH. reflexivity.
  - discriminate.
Qed.

Lemma last_n_last_n {A} (n : nat) (l : list A) : Memory.last_n n (Memory.last_n n l) = Memory.last_n n l.
Proof. apply last_n_short, last_n_length. Qed.

Section ContextProofs.
Import Memory.
Variable py_str : json -> string.

Lemma profile_line_len (p : record) (k label suffix : string) :
  length (MemoryExt.profile_line py_str p k label suffix) <= 1.
Proof.
  unfold MemoryExt.profile_line.
  destruct (dict_get k p); [destruct (py_truthy _)|]; cbn; lia.
Qed.

Lemma bucket_lines_len (label : string) (bucket shown : list record) (r : list string) :
  MemoryExt.bucket_lines label bucket shown = Some r -> length r <= 1.
Proof.
  unfold MemoryExt.bucket_lines. destruct bucket.
  - intros H. injection H as <-. cbn. lia.
  - destruct (all_some _); intros H; [injection H as <-; cbn; lia | discriminate].
Qed.

Lemma titled_lines_len (title : string) (line : record -> option string) (items : list record)
    (r : list string) :
  MemoryExt.titled_lines title line items = Some r -> length r <= S (length items).
Proof.
  unfold MemoryExt.titled_lines. destruct items as [|i items].
  - intros H. injection H as <-. cbn. lia.
  - destruct (all_some (map line (i :: items))) as [ls|] eqn:E; intros H; [|discriminate].
    injection H as <-. apply all_some_length in E. rewrite length_map in E.
    cbn [length] in *. lia.
Qed.

Lemma goals_lines_len (prefs : record) (r : list string) :
  MemoryExt.goals_lines prefs = Some r -> length r <= 1.
Proof.
  unfold MemoryExt.goals_lines. destruct (dict_get "career_goals" prefs) as [v|].
  - destruct (py_truthy v).
    + destruct (match v with JArr _ => _ | JStr _ => _ | _ => None end);
        intros H; [injection H as <-; cbn; lia | discriminate].
    + intros H. injection H as <-. cbn. lia.
  - intros H. injection H as <-. cbn. lia.
Qed.

Lemma bucket_lines_trim (label : string) (b b' shown : list record) :
  (b = [] <-> b' = []) ->
  MemoryExt.bucket_lines label b shown = MemoryExt.bucket_lines label b' shown.
Proof.
  unfold MemoryExt.bucket_lines. intros H.
  destruct b, b'; try reflexivity.
  - discriminate (proj1 H eq_refl).
  - discriminate (proj2 H eq_refl).
Qed.

Lemma last_n_nil_iff {A} (n : nat) (l : list A) : 0 < n -> (last_n n l = [] <-> l = []).
Proof.
  intros Hn. split; [|intros ->; reflexivity].
  intros H. destruct l as [|x l]; [reflexivity|]. exfalso.
  assert (L : length (last_n n (x :: l)) = 0) by (rewrite H; reflexivity).
  unfold last_n in L. rewrite length_skipn in L. cbn [length] in L. lia.
Qed.

(** [build_context_prompt()] stays bounded however long the memory grows:
    when it does not raise, its lines open with [=== USER MEMORY ===],
    close with the closing rule, and number at most 18 (header, five
    profile lines, three skill lines, a mentor-notes title with at most
    three notes, a sessions title with at most two sessions, the goals
    line and the footer). *)
Theorem build_context_lines_shape (d : data_t) (prefs : record) (ls : list string) :
  MemoryExt.build_context_lines py_str d prefs = Some ls ->
  (exists mid, ls = MemoryExt.context_header :: app mid [MemoryExt.context_footer]) /\
  length ls <= 18.
Proof.
  unfold MemoryExt.build_context_lines. cbv zeta.
  destruct (MemoryExt.bucket_lines _ (current _) _) as [l1|] eqn:E1; [|discriminate].
  destruct (MemoryExt.bucket_lines _ (completed _) _) as [l2|] eqn:E2; [|discriminate].
  destruct (MemoryExt.bucket_lines _ (learning _) _) as [l3|] eqn:E3; [|discriminate].
  destruct (MemoryExt.titled_lines _ _ (last_n 3 _)) as [l4|] eqn:E4; [|discriminate].
  destruct (MemoryExt.titled_lines _ _ (last_n 2 _)) as [l5|] eqn:E5; [|discriminate].
  destruct (MemoryExt.goals_lines prefs) as [l6|] eqn:E6; [|discriminate].
  intros H. injection H as <-. split.
  - eexists. cbn [app]. f_equal. rewrite !app_assoc. reflexivity.
  - apply bucket_lines_len in E1, E2, E3. apply goals_lines_len in E6.
    apply titled_lines_len in E4, E5.
    pose proof (last_n_length 3 (mentor_notes d)). pose proof (last_n_length 2 (session_summaries d)).
    pose proof (profile_line_len (profile d) "name" "Name: " "").
    pose proof (profile_line_len (profile d) "current_role" "Current role: " "").
    pose proof (profile_line_len (profile d) "target_role" "Target role: " "").
    pose proof (profile_line_len (profile d) "years_experience" "Experience: " " years").
    pose proof (profile_line_len (profile d) "location" "Location: " "").
    cbn [length]. rewrite !length_app. cbn [length]. lia.
Qed.

(** Only the tail of the history reaches the mentor's prompt:
    [build_context_prompt()] is the same when the mentor notes are cut to
    the last three, the session summaries to the last two, the validated
    skills to the last five and the current skills to the first eight. *)
Theorem build_context_prompt_window (d : data_t) (prefs : record) :
  let sk := skills d in
  let d' := mk_data (profile d)
              (mk_skills (firstn 8 (current sk)) (learning sk) (last_n 5 (completed sk)) (targets sk))
              (last_n 3 (mentor_notes d)) (learning_history d) (last_n 2 (session_summaries d))
              (assessment_history d) (updated_at d) in
  MemoryExt.build_context_prompt py_str d' prefs = MemoryExt.build_context_prompt py_str d prefs.
Proof.
  cbv zeta. unfold MemoryExt.build_context_prompt, MemoryExt.build_context_lines.
  cbn [profile skills current learning completed targets mentor_notes session_summaries].
  rewrite !last_n_last_n, firstn_firstn. cbn [Nat.min].
  rewrite (bucket_lines_trim _ (firstn 8 (current (skills d))) (current (skills d)))
    by (destruct (current (skills d)); cbn; split; congruence).
  rewrite (bucket_lines_trim _ (last_n 5 (completed (skills d))) (completed (skills d)))
    by (apply last_n_nil_iff; lia).
  reflexivity.
Qed.

End ContextProofs.

Lemma value_object (room : nat) (r : string) (v : json) (rest : string) :
  Json.value room (String "{" r) = inl (v, rest) -> exists kvs, v = JObj kvs.
Proof.
  destruct room as [|f]; [discriminate|].
  cbn [Json.value].
  replace (Ascii.eqb "{" c_dq) with false by reflexivity.
  replace (Ascii.eqb "{" "{") with true by reflexivity.
  cbv iota.
  match goal with |- context [?M (String.length r) (dict_set _ _ []) _] => set (MM := M) end.
  assert (HM : forall g acc t p, MM g acc t = inl p -> exists kvs, fst p = JObj kvs).
  { induction g as [|g IH]; intros acc t p H; [discriminate|].
    unfold MM in H. cbn beta iota in H. fold MM in H.
    repeat (match type of H with
            | context [match ?x with _ => _ end] => destruct x; try discriminate
            end).
    - injection H as <-. eexists. reflexivity.
    - exact (IH _ _ _ H). }
  intros H.
  repeat (match type of H with
          | context [match ?x with _ => _ end] => destruct x; try discriminate
          end).
  all: first [ injection H as <- _; eexists; reflexivity
             | destruct (HM _ _ _ _ H) as [kvs E]; exists kvs; exact E ].
Qed.

Lemma loads_object (room : nat) (r : string) (v : json) :
  Json.loads room (String "{" r) = inl v -> exists kvs, v = JObj kvs.
Proof.
  unfold Json.loads. change (Json.skip_jws (String "{" r)) with (String "{" r).
  destruct (Json.value room (String "{" r)) as [[v' rest]|e] eqn:E; [|discriminate].
  destruct (Json.skip_jws rest); [|discriminate].
  intros H. injection H as <-. exact (value_object _ _ _ _ E).
Qed.

Lemma find_char_drop (c : ascii) (s : string) (i : nat) :
  find_char c s = Some i -> exists r, Py.drop i s = String c r.
Proof.
  revert i. induction s as [|d s IH]; intros i H; cbn [find_char] in H; [discriminate|].
  destruct (Ascii.eqb c d) eqn:E.
  - injection H as <-. apply Ascii.eqb_eq in E. subst d. exists s. reflexivity.
  - destruct (find_char c s) as [j|]; [|discriminate].
    injection H as <-. exact (IH j eq_refl).
Qed.

(** [_extract_json(text)] returns a dict or raises.  The dict is the
    object parsed from the text between the first [{] and the last [}], or
    [{"raw_analysis": text}] when there is no such span or [json.loads]
    raises [JSONDecodeError] on it; it is never a list, a string or a
    number.  The exceptions that escape [except json.JSONDecodeError] are
    the [ValueError] of an integer literal of more than
    [Py.int_max_str_digits] digits and [RecursionError], and the first one
    does occur: an object holding a 4301-digit integer raises it (with room
    for 1000 nested arrays and objects, the default
    [sys.getrecursionlimit()]).  A text
    with no [{] always gives the fallback. *)
Theorem extract_json_object (room : nat) (text : string) :
  ((exists kvs, _extract_json room text = inl (JObj kvs)) \/
   _extract_json room text = inr IntTooLong \/
   _extract_json room text = inr RecursionError) /\
  (find_char "{"%char text = None ->
   _extract_json room text = inl (JObj [("raw_analysis", JStr text)])) /\
  _extract_json 1000
    ("Plan: {" ++ dq ++ "n" ++ dq ++ ": " ++ String.concat EmptyString (List.repeat "7" 4301)
     ++ "} done") = inr IntTooLong.
Proof.
  split; [|split].
  3:{ vm_compute. reflexivity. }
  all: unfold _extract_json, py_find.
  - destruct (find_char "{"%char text) as [i|] eqn:Ei; [|left; eexists; reflexivity].
    destruct ((0 <=? Z.of_nat i)%Z && (Z.of_nat i <? py_rfind "}" text + 1)%Z) eqn:Hb;
      [|left; eexists; reflexivity].
    apply andb_true_iff in Hb as [_ Hlt]. apply Z.ltb_lt in Hlt.
    destruct (Json.loads room (py_slice text (Z.of_nat i) (py_rfind "}" text + 1)))
      as [v|[| |]] eqn:El.
    + left. unfold py_slice in El. rewrite Nat2Z.id in El.
      destruct (find_char_drop _ _ _ Ei) as [r Er]. rewrite Er in El.
      destruct (Z.to_nat (py_rfind "}" text + 1 - Z.of_nat i)) as [|m] eqn:Em; [lia|].
      cbn [Py.take] in El. destruct (loads_object _ _ _ El) as [kvs ->].
      exists kvs. reflexivity.
    + left. eexists. reflexivity.
    + right. left. reflexivity.
    + right. right. reflexivity.
  - intros E. rewrite E. reflexivity.
Qed.

Lemma continue_assessment_history (room : nat) (chat : gateway) (ui : string)
    (history : list message) (skill : string) (result : assessment_result) :
  continue_assessment room chat ui history skill = inl result ->
  exists ext, r_history result = app history ext /\ length ext = 2.
Proof.
  unfold continue_assessment. cbv zeta.
  destruct (_extract_bracketed_json room _ "[SUBTOPIC_SCORES:"); [|discriminate].
  destruct (_extract_bracketed_json room _ "[GAPS:"); [|discriminate].
  intros H. injection H as <-. cbn [r_history].
  eexists. rewrite <- app_assoc. split; [reflexivity | reflexivity].
Qed.

Lemma quiz_step_inv (room : nat) (chat : gateway) (e : quiz_event) (s : session) :
  let s' := quiz_step room chat e s in
  quiz_skill s' = quiz_skill s /\
  quiz_q_count s <= quiz_q_count s' /\
  (exists ext, quiz_history s' = app (quiz_history s) ext /\
               length ext = 2 * (quiz_q_count s' - quiz_q_count s)) /\
  (quiz_score s <> None -> quiz_score s' <> None) /\
  (forall k, In k (map fst (quiz_subtopics s)) -> In k (map fst (quiz_subtopics s'))) /\
  (exists l, quiz_low_conf s' = app (quiz_low_conf s) l /\
             length l <= quiz_q_count s' - quiz_q_count s).
Proof.
  cbv zeta.
  assert (Same : forall s0, s0 = s ->
    quiz_skill s0 = quiz_skill s /\
    quiz_q_count s <= quiz_q_count s0 /\
    (exists ext, quiz_history s0 = app (quiz_history s) ext /\
                 length ext = 2 * (quiz_q_count s0 - quiz_q_count s)) /\
    (quiz_score s <> None -> quiz_score s0 <> None) /\
    (forall k, In k (map fst (quiz_subtopics s)) -> In k (map fst (quiz_subtopics s0))) /\
    (exists l, quiz_low_conf s0 = app (quiz_low_conf s) l /\
               length l <= quiz_q_count s0 - quiz_q_count s)).
  { intros s0 ->.
    split; [reflexivity|split; [lia|split; [|split; [auto|split; [auto|]]]]].
    - exists []. rewrite app_nil_r. split; [reflexivity|cbn [length app]; lia].
    - exists []. rewrite app_nil_r. split; [reflexivity|cbn [length app]; lia]. }
  destruct e as [a|a|]; cbn [quiz_step].
  - unfold assess_submit.
    destruct (String.eqb (Py.strip a) EmptyString); [exact (Same s eq_refl)|].
    destruct (continue_assessment room chat a (quiz_history s) (quiz_skill s))
      as [result|err] eqn:Ec; [|exact (Same s eq_refl)].
    cbn [quiz_skill quiz_q_count quiz_history quiz_score quiz_subtopics quiz_low_conf].
    split; [reflexivity|split; [lia|split; [|split; [|split]]]].
    + destruct (continue_assessment_history _ _ _ _ _ _ Ec) as [ext [E L]].
      exists ext. rewrite E, L. split; [reflexivity|lia].
    + destruct (r_score _); congruence.
    + intros k Hk. destruct (r_subtopic_scores _); [exact Hk|apply dict_update_keys, Hk].
    + exists []. rewrite app_nil_r. split; [reflexivity|cbn [length app]; lia].
  - unfold assess_low_confidence. cbv zeta.
    destruct (continue_assessment room chat (low_confidence_flag_text a) (quiz_history s)
                (quiz_skill s)) as [result|err] eqn:Ec; [|exact (Same s eq_refl)].
    cbn [quiz_skill quiz_q_count quiz_history quiz_score quiz_subtopics quiz_low_conf].
    split; [reflexivity|split; [lia|split; [|split; [auto|split]]]].
    + destruct (continue_assessment_history _ _ _ _ _ _ Ec) as [ext [E L]].
      exists ext. rewrite E, L. split; [reflexivity|lia].
    + intros k Hk. destruct (r_subtopic_scores _); [exact Hk|apply dict_update_keys, Hk].
    + eexists. split; [reflexivity|cbn [length app]; lia].
  - cbn [quiz_skill quiz_q_count quiz_history quiz_score quiz_subtopics quiz_low_conf].
    split; [reflexivity|split; [lia|split; [|split; [auto|split; [auto|]]]]].
    + exists []. rewrite app_nil_r. split; [reflexivity|cbn [length app]; lia].
    + exists []. rewrite app_nil_r. split; [reflexivity|cbn [length app]; lia].
Qed.

(** Over any sequence of answer-form submissions (answers, low-confidence
    flags, exit) the quiz keeps its skill; the question counter never goes
    down; the transcript only grows, by exactly two messages (the user's
    input and the assessor's reply) per counted question; an overall score,
    once received, is never cleared; a subtopic once scored stays in the
    subtopic map; and the low-confidence flags only grow, by at most one per
    counted question.  A submission on which [continue_assessment] raises
    ends the script run and leaves the session as it was. *)
Theorem quiz_run_invariants (room : nat) (chat : gateway) (es : list quiz_event)
    (s : session) :
  let s' := quiz_run room chat es s in
  quiz_skill s' = quiz_skill s /\
  quiz_q_count s <= quiz_q_count s' /\
  (exists ext, quiz_history s' = app (quiz_history s) ext /\
               length ext = 2 * (quiz_q_count s' - quiz_q_count s)) /\
  (quiz_score s <> None -> quiz_score s' <> None) /\
  (forall k, In k (map fst (quiz_subtopics s)) -> In k (map fst (quiz_subtopics s'))) /\
  (exists l, quiz_low_conf s' = app (quiz_low_conf s) l /\
             length l <= quiz_q_count s' - quiz_q_count s).
Proof.
  cbv zeta. revert s. induction es as [|e es IH]; intros s; cbn [quiz_run].
  - split; [reflexivity|split; [lia|split; [|split; [auto|split; [auto|]]]]].
    + exists []. rewrite app_nil_r. split; [reflexivity|cbn [length app]; lia].
    + exists []. rewrite app_nil_r. split; [reflexivity|cbn [length app]; lia].
  - destruct (quiz_state s); [exact (IH s)| |exact (IH s)].
    destruct (quiz_step_inv room chat e s) as (S1 & S2 & [e1 [S3 S3']] & S4 & S5 & [l1 [S6 S6']]).
    destruct (IH (quiz_step room chat e s)) as (R1 & R2 & [e2 [R3 R3']] & R4 & R5 & [l2 [R6 R6']]).
    split; [congruence|split; [lia|split; [|split; [auto|split; [auto|]]]]].
    + exists (app e1 e2). rewrite R3, S3, app_assoc. split; [reflexivity|].
      rewrite length_app. lia.
    + exists (app l1 l2). rewrite R6, S6, app_assoc. split; [reflexivity|].
      rewrite length_app. lia.
Qed.

Lemma build_gap_entries_category_witness :
  exists e, In e (build_gap_entries "Data / ML Ops" [("SQL", 40%Z); ("Spark", 85%Z)] [] 50) /\
            ge_category e = "data_ml_ops" /\ Py.contains (ge_category e) " " = false.
Proof.
  destruct (build_gap_entries "Data / ML Ops" [("SQL", 40%Z); ("Spark", 85%Z)] [] 50)
    as [|e rest] eqn:E; [vm_compute in E; discriminate|].
  assert (Hin : In e (build_gap_entries "Data / ML Ops" [("SQL", 40%Z); ("Spark", 85%Z)] [] 50))
    by (rewrite E; left; reflexivity).
  destruct (build_gap_entries_category _ _ _ _ _ Hin) as [Hc Hs].
  exists e. split; [left; reflexivity|]. split; [rewrite Hc; reflexivity|exact Hs].
Defined.

Lemma build_context_lines_shape_witness :
  let d := Memory.data (MemoryExt.update_profile (fun _ => "{}") "t1"
                          [("name", JStr "Ana"); ("location", JStr "Porto")]
                          (Memory.default_store "t0")) in
  MemoryExt.build_context_lines (fun v => match v with JStr s => s | _ => "?" end) d [] =
    Some [MemoryExt.context_header; "Name: Ana"; "Location: Porto"; MemoryExt.context_footer] /\
  (exists mid, [MemoryExt.context_header; "Name: Ana"; "Location: Porto"; MemoryExt.context_footer]
               = MemoryExt.context_header :: app mid [MemoryExt.context_footer]) /\
  length [MemoryExt.context_header; "Name: Ana"; "Location: Porto"; MemoryExt.context_footer] <= 18.
Proof.
  intros d. assert (H : MemoryExt.build_context_lines
                          (fun v => match v with JStr s => s | _ => "?" end) d [] =
    Some [MemoryExt.context_header; "Name: Ana"; "Location: Porto"; MemoryExt.context_footer])
    by reflexivity.
  split; [exact H|]. exact (build_context_lines_shape _ d [] _ H).
Defined.

Lemma run_final_validation_memory_witness :
  let chat := fun (_ : list message) (_ : string) => "Solid work. [FINAL_SCORE: 85/100] [READY_FOR_CV: yes]" in
  let st := Memory.start_learning_append "t0" "SQL" "beginner" (Memory.default_store "t0") in
  let res := run_final_validation chat "t1" "t2" "SQL" [] (Some st) in
  vr_final_score (fst res) = Some 85%Z /\
  exists st', snd res = Some st' /\
    Memory.completed (Memory.skills (Memory.data st')) =
      [[("name", JStr "SQL"); ("score", JInt 85); ("completed_at", JStr "t1")]].
Proof.
  intros chat st res.
  destruct (run_final_validation_memory chat "t1" "t2" "SQL" [] st) as [P [C _]].
  assert (Hs : vr_final_score (fst res) = Some 85%Z)
    by exact (P "Solid work. " "85" " [READY_FOR_CV: yes]" eq_refl eq_refl
                ltac:(discriminate) eq_refl ltac:(apply Nat.leb_le; reflexivity)).
  split; [exact Hs|].
  destruct (C 85%Z Hs ltac:(discriminate)) as [st' [E [_ [Hc _]]]].
  exists st'. split; [exact E|]. rewrite Hc. reflexivity.
Defined.

Lemma continue_learning_memory_witness :
  let chat := fun (_ : list message) (_ : string) => "Great. [QUIZ_SCORE: 90/100] [SESSION_COMPLETE]" in
  let st := Memory.start_learning_append "t0" "SQL" "beginner" (Memory.default_store "t0") in
  let res := continue_learning chat "t1" "t2" "SELECT 1" [] "SQL" (Some st) in
  lr_quiz_score (fst res) = Some 90%Z /\
  exists st', snd res = Some st' /\
    Memory.completed (Memory.skills (Memory.data st')) =
      [[("name", JStr "SQL"); ("score", JInt 90); ("completed_at", JStr "t1")]].
Proof.
  intros chat st res.
  destruct (continue_learning_memory chat "t1" "t2" "SELECT 1" [] "SQL" st) as [P [Hsc [C _]]].
  assert (Hs : lr_quiz_score (fst res) = Some 90%Z)
    by exact (P "Great. " "90" " [SESSION_COMPLETE]" eq_refl eq_refl ltac:(discriminate) eq_refl
                ltac:(apply Nat.leb_le; reflexivity)).
  split; [exact Hs|].
  destruct (C 90%Z Hs ltac:(lia) (eq_trans Hsc eq_refl)) as [st' [E [_ [Hc _]]]].
  exists st'. split; [exact E|]. rewrite Hc. reflexivity.
Defined.

Lemma all_some_none {A} (l : list (option A)) : In None l -> all_some l = None.
Proof.
  induction l as [|[x|] l IH]; intros H; cbn [all_some].
  - destruct H.
  - destruct H as [H|H]; [discriminate|]. rewrite (IH H). reflexivity.
  - reflexivity.
Qed.

Lemma all_some_some {A} (l : list (option A)) :
  Forall (fun x => x <> None) l -> exists r, all_some l = Some r.
Proof.
  induction 1 as [|[x|] l Hx _ [r0 IH]]; cbn [all_some].
  - exists []. reflexivity.
  - rewrite IH. eexists. reflexivity.
  - congruence.
Qed.

Lemma Forall_skipn' {A} (P : A -> Prop) (n : nat) (l : list A) :
  Forall P l -> Forall P (skipn n l).
Proof.
  rewrite !Forall_forall. intros H x Hx. apply H.
  rewrite <- (firstn_skipn n l). apply in_or_app. right. exact Hx.
Qed.

Lemma Forall_firstn' {A} (P : A -> Prop) (n : nat) (l : list A) :
  Forall P l -> Forall P (firstn n l).
Proof.
  rewrite !Forall_forall. intros H x Hx. apply H.
  rewrite <- (firstn_skipn n l). apply in_or_app. left. exact Hx.
Qed.

Lemma Forall_filter' {A} (P : A -> Prop) (f : A -> bool) (l : list A) :
  Forall P l -> Forall P (filter f l).
Proof.
  rewrite !Forall_forall. intros H x Hx. apply filter_In in Hx as [Hx _]. exact (H x Hx).
Qed.

Section ContextTotal.
Import Memory.
Variable py_str : json -> string.

Lemma bucket_lines_some (label : string) (bucket shown : list record) :
  Forall (fun s => MemoryExt.name_item s <> None) shown ->
  MemoryExt.bucket_lines label bucket shown <> None.
Proof.
  intros H. unfold MemoryExt.bucket_lines. destruct bucket; [discriminate|].
  destruct (all_some_some (map MemoryExt.name_item shown)) as [r' E];
    [apply Forall_map, H|]. rewrite E. discriminate.
Qed.

Lemma titled_lines_some (title : string) (line : record -> option string) (items : list record) :
  Forall (fun s => line s <> None) items -> MemoryExt.titled_lines title line items <> None.
Proof.
  intros H. unfold MemoryExt.titled_lines. destruct items; [discriminate|].
  destruct (all_some_some (map line (r :: items))) as [r' E]; [apply Forall_map, H|].
  rewrite E. discriminate.
Qed.

(** What [build_context_prompt()] needs of the record to not raise. *)
Lemma ledger_step_context_ok (o : ledger_op) (st : store) :
  (forall now cur tgt, o = UpdateSkills now cur tgt ->
     Forall (fun s => MemoryExt.name_item s <> None) cur) ->
  Forall (fun s => MemoryExt.name_item s <> None) (current (skills (data st))) /\
  Forall (fun s => MemoryExt.name_item s <> None) (learning (skills (data st))) /\
  Forall (fun s => MemoryExt.name_item s <> None) (completed (skills (data st))) /\
  Forall (fun n => MemoryExt.note_line py_str n <> None) (mentor_notes (data st)) /\
  Forall (fun s => MemoryExt.session_line py_str s <> None) (session_summaries (data st)) ->
  let st' := ledger_step o st in
  Forall (fun s => MemoryExt.name_item s <> None) (current (skills (data st'))) /\
  Forall (fun s => MemoryExt.name_item s <> None) (learning (skills (data st'))) /\
  Forall (fun s => MemoryExt.name_item s <> None) (completed (skills (data st'))) /\
  Forall (fun n => MemoryExt.note_line py_str n <> None) (mentor_notes (data st')) /\
  Forall (fun s => MemoryExt.session_line py_str s <> None) (session_summaries (data st')).
Proof.
  intros Hop (H1 & H2 & H3 & H4 & H5). cbv zeta. destruct o as [now name score|now name level|now cur tgt].
  - cbn. repeat split; auto.
    + apply Forall_filter', H2.
    + apply Forall_app. split; [exact H3|]. constructor; [discriminate|constructor].
  - unfold ledger_step, start_learning_append.
    destruct (existsb _ _); [repeat split; auto|].
    cbn. repeat split; auto.
    apply Forall_app. split; [exact H2|]. constructor; [discriminate|constructor].
  - specialize (Hop now cur tgt eq_refl). unfold ledger_step, update_skills. cbn.
    destruct cur, tgt; cbn; repeat split; auto.
Qed.

Lemma note_step_context_ok (o : note_op) (st : store) :
  Forall (fun s => MemoryExt.name_item s <> None) (current (skills (data st))) /\
  Forall (fun s => MemoryExt.name_item s <> None) (learning (skills (data st))) /\
  Forall (fun s => MemoryExt.name_item s <> None) (completed (skills (data st))) /\
  Forall (fun n => MemoryExt.note_line py_str n <> None) (mentor_notes (data st)) /\
  Forall (fun s => MemoryExt.session_line py_str s <> None) (session_summaries (data st)) ->
  let st' := note_step o st in
  Forall (fun s => MemoryExt.name_item s <> None) (current (skills (data st'))) /\
  Forall (fun s => MemoryExt.name_item s <> None) (learning (skills (data st'))) /\
  Forall (fun s => MemoryExt.name_item s <> None) (completed (skills (data st'))) /\
  Forall (fun n => MemoryExt.note_line py_str n <> None) (mentor_notes (data st')) /\
  Forall (fun s => MemoryExt.session_line py_str s <> None) (session_summaries (data st')).
Proof.
  intros (H1 & H2 & H3 & H4 & H5). cbv zeta. destruct o as [now note|now ty sm ki]; cbn.
  - repeat split; auto. unfold last_n. apply Forall_skipn', Forall_app.
    split; [exact H4|]. constructor; [discriminate|constructor].
  - repeat split; auto. unfold last_n. apply Forall_skipn', Forall_app.
    split; [exact H5|]. constructor; [discriminate|constructor].
Qed.

(** [build_context_prompt()] never raises on a memory built from the
    default record by the store's own operations (completing skills,
    starting learning sessions, updating the skill lists, adding mentor
    notes and session summaries), as long as every current skill handed to
    [update_skills] has a string name or none, and the preferences carry
    no career goals (as in the default record, where they are [[]]). *)
Theorem build_context_prompt_total (now : string) (ops : list ledger_op) (nops : list note_op)
    (prefs : record) :
  (forall now' cur tgt, In (Memory.UpdateSkills now' cur tgt) ops ->
     Forall (fun s => MemoryExt.name_item s <> None) cur) ->
  (forall v, dict_get "career_goals" prefs = Some v -> py_truthy v = false) ->
  MemoryExt.build_context_prompt py_str
    (data (run_notes nops (run_ledger ops (default_store now)))) prefs <> None.
Proof.
  intros Hops Hprefs.
  assert (I0 :
    let st := default_store now in
    Forall (fun s => MemoryExt.name_item s <> None) (current (skills (data st))) /\
    Forall (fun s => MemoryExt.name_item s <> None) (learning (skills (data st))) /\
    Forall (fun s => MemoryExt.name_item s <> None) (completed (skills (data st))) /\
    Forall (fun n => MemoryExt.note_line py_str n <> None) (mentor_notes (data st)) /\
    Forall (fun s => MemoryExt.session_line py_str s <> None) (session_summaries (data st)))
    by (cbn; repeat split; constructor).
  cbv zeta in I0.
  assert (I1 : forall ops0 st0,
    (forall now' cur tgt, In (UpdateSkills now' cur tgt) ops0 ->
       Forall (fun s => MemoryExt.name_item s <> None) cur) ->
    Forall (fun s => MemoryExt.name_item s <> None) (current (skills (data st0))) /\
    Forall (fun s => MemoryExt.name_item s <> None) (learning (skills (data st0))) /\
    Forall (fun s => MemoryExt.name_item s <> None) (completed (skills (data st0))) /\
    Forall (fun n => MemoryExt.note_line py_str n <> None) (mentor_notes (data st0)) /\
    Forall (fun s => MemoryExt.session_line py_str s <> None) (session_summaries (data st0)) ->
    let st1 := run_ledger ops0 st0 in
    Forall (fun s => MemoryExt.name_item s <> None) (current (skills (data st1))) /\
    Forall (fun s => MemoryExt.name_item s <> None) (learning (skills (data st1))) /\
    Forall (fun s => MemoryExt.name_item s <> None) (completed (skills (data st1))) /\
    Forall (fun n => MemoryExt.note_line py_str n <> None) (mentor_notes (data st1)) /\
    Forall (fun s => MemoryExt.session_line py_str s <> None) (session_summaries (data st1))).
  { induction ops0 as [|o ops0 IH]; intros st0 Hc Hi; [exact Hi|].
    cbv zeta. unfold run_ledger. cbn [fold_left]. apply IH.
    - intros n c t Hin. exact (Hc n c t (or_intror Hin)).
    - apply ledger_step_context_ok; [|exact Hi].
      intros n c t ->. exact (Hc n c t (or_introl eq_refl)). }
  assert (I2 : forall nops0 st0,
    Forall (fun s => MemoryExt.name_item s <> None) (current (skills (data st0))) /\
    Forall (fun s => MemoryExt.name_item s <> None) (learning (skills (data st0))) /\
    Forall (fun s => MemoryExt.name_item s <> None) (completed (skills (data st0))) /\
    Forall (fun n => MemoryExt.note_line py_str n <> None) (mentor_notes (data st0)) /\
    Forall (fun s => MemoryExt.session_line py_str s <> None) (session_summaries (data st0)) ->
    let st1 := run_notes nops0 st0 in
    Forall (fun s => MemoryExt.name_item s <> None) (current (skills (data st1))) /\
    Forall (fun s => MemoryExt.name_item s <> None) (learning (skills (data st1))) /\
    Forall (fun s => MemoryExt.name_item s <> None) (completed (skills (data st1))) /\
    Forall (fun n => MemoryExt.note_line py_str n <> None) (mentor_notes (data st1)) /\
    Forall (fun s => MemoryExt.session_line py_str s <> None) (session_summaries (data st1))).
  { induction nops0 as [|o nops0 IH]; intros st0 Hi; [exact Hi|].
    cbv zeta. unfold run_notes. cbn [fold_left]. apply IH.
    apply note_step_context_ok, Hi. }
  destruct (I2 nops _ (I1 ops _ Hops I0)) as (H1 & H2 & H3 & H4 & H5).
  set (d := data (run_notes nops (run_ledger ops (default_store now)))) in *.
  unfold MemoryExt.build_context_prompt, MemoryExt.build_context_lines.
  destruct (MemoryExt.bucket_lines _ (current (skills d)) _) as [l1|] eqn:E1;
    [|exfalso; exact (bucket_lines_some _ _ _ (Forall_firstn' _ _ _ H1) E1)].
  destruct (MemoryExt.bucket_lines _ (completed (skills d)) _) as [l2|] eqn:E2;
    [|exfalso; exact (bucket_lines_some _ _ _ (Forall_skipn' _ _ _ H3) E2)].
  destruct (MemoryExt.bucket_lines _ (learning (skills d)) _) as [l3|] eqn:E3;
    [|exfalso; exact (bucket_lines_some _ _ _ H2 E3)].
  destruct (MemoryExt.titled_lines _ _ (last_n 3 _)) as [l4|] eqn:E4;
    [|exfalso; exact (titled_lines_some _ _ _ (Forall_skipn' _ _ _ H4) E4)].
  destruct (MemoryExt.titled_lines _ _ (last_n 2 _)) as [l5|] eqn:E5;
    [|exfalso; exact (titled_lines_some _ _ _ (Forall_skipn' _ _ _ H5) E5)].
  unfold MemoryExt.goals_lines.
  destruct (dict_get "career_goals" prefs) as [v|] eqn:Eg; [|discriminate].
  rewrite (Hprefs v eq_refl). discriminate.
Qed.

(** [build_context_prompt()] raises (a [TypeError] from [str.join]) as
    soon as one of the first eight current skills has a [name] that is not
    a string, e.g. a number; the mentor chat then fails with it. *)
Theorem build_context_prompt_bad_name (d : data_t) (prefs : record) (s : record) (v : json) :
  In s (firstn 8 (current (skills d))) ->
  dict_get "name" s = Some v -> (forall t, v <> JStr t) ->
  MemoryExt.build_context_prompt py_str d prefs = None.
Proof.
  intros Hin Hn Hv.
  assert (Hs : MemoryExt.name_item s = None).
  { unfold MemoryExt.name_item. rewrite Hn. destruct v; try reflexivity. destruct (Hv s0 eq_refl). }
  unfold MemoryExt.build_context_prompt, MemoryExt.build_context_lines, MemoryExt.bucket_lines at 1.
  destruct (current (skills d)) as [|c cs] eqn:Ec; [destruct Hin|].
  rewrite all_some_none; [reflexivity|].
  rewrite <- Hs. apply in_map. exact Hin.
Qed.

End ContextTotal.

Lemma build_context_prompt_total_witness :
  let ops := [Memory.LearnAppend "t1" "SQL" "beginner"; Memory.MarkCompleted "t2" "SQL" (JInt 85);
              Memory.UpdateSkills "t3" [[("name", JStr "Python"); ("level", JStr "advanced")]] []] in
  let nops := [Memory.AddNote "t4" "User said: I want a data job";
               Memory.AddSummary "t5" "validation" "Validated SQL. Score: 85/100. CV ready: False" []] in
  let prefs := [("learning_style", JNull); ("preferred_topics", JArr []);
                ("career_goals", JArr []); ("concerns", JArr [])] in
  (forall now' cur tgt, In (Memory.UpdateSkills now' cur tgt) ops ->
     Forall (fun s => MemoryExt.name_item s <> None) cur) /\
  (forall v, dict_get "career_goals" prefs = Some v -> py_truthy v = false) /\
  MemoryExt.build_context_prompt (fun _ => "v")
    (Memory.data (Memory.run_notes nops (Memory.run_ledger ops (Memory.default_store "t0")))) prefs
    <> None.
Proof.
  intros ops nops prefs.
  assert (H1 : forall now' cur tgt, In (Memory.UpdateSkills now' cur tgt) ops ->
             Forall (fun s => MemoryExt.name_item s <> None) cur).
  { intros now' cur tgt [H|[H|[H|[]]]]; try discriminate.
    injection H as _ <- _. constructor; [discriminate|constructor]. }
  assert (H2 : forall v, dict_get "career_goals" prefs = Some v -> py_truthy v = false).
  { intros v H. injection H as <-. reflexivity. }
  split; [exact H1|]. split; [exact H2|].
  exact (build_context_prompt_total (fun _ => "v") "t0" ops nops prefs H1 H2).
Defined.

Lemma build_context_prompt_bad_name_witness :
  let st := Memory.update_skills "t1" [[("name", JInt 5)]] [] (Memory.default_store "t0") in
  In [("name", JInt 5)] (firstn 8 (Memory.current (Memory.skills (Memory.data st)))) /\
  dict_get "name" [("name", JInt 5)] = Some (JInt 5) /\
  MemoryExt.build_context_prompt (fun _ => "v") (Memory.data st) [] = None.
Proof.
  intros st.
  assert (Hin : In [("name", JInt 5)] (firstn 8 (Memory.current (Memory.skills (Memory.data st)))))
    by (left; reflexivity).
  split; [exact Hin|]. split; [reflexivity|].
  exact (build_context_prompt_bad_name (fun _ => "v") (Memory.data st) [] _ (JInt 5) Hin eq_refl
           (fun t H => ltac:(discriminate H))).
Defined.
